(** * The filtering and aggregation pipeline of [dashboard/app.py]

    The dashboard reads one CSV file into a pandas data frame, derives three
    columns, filters the frame with the values chosen in the sidebar and
    hands four aggregations and three scalars to the plotting layer.

    Modelling conventions.
    - A data frame is the list of its rows, in file order.
    - A cell that pandas holds as NaN / NaT is [None].
    - A pandas [Timestamp] is the number of nanoseconds since 1970-01-01
      00:00:00 (an integer, [Z]); a [datetime.date] is a day number.  The
      int64 range limit of pandas is not modelled.
    - A float64 cell that is not NaN is the rational number it denotes
      ([Q]); comparisons of floats are exact, so the masks below are the
      ones pandas computes.  The total revenue and the means are the exact
      ones, and the sum of a group is taken by contract (class [FloatSum]):
      rounding of float64 arithmetic is outside this development.
    - [sort_values] goes through numpy's default sort, which promises no
      order among equal keys; it is modelled by its contract (class
      [Sorter]).  *)

From Stdlib Require Import ZArith QArith Lia.
From stdpp Require Import base option list sets strings sorting.

Local Open Scope Z_scope.
Set Warnings "-clear-no-such-hyp".

(** ** Timestamps and the calendar *)

Module Time.

Definition ns_per_hour : Z := 3600 * 1000000000.
Definition ns_per_day : Z := 24 * ns_per_hour.

(** [Timestamp.date()]: the calendar day a timestamp falls on. *)
Definition date_of (t : Z) : Z := t / ns_per_day.

(** [pd.to_datetime(d)] for a [datetime.date]: midnight of that day. *)
Definition to_datetime (d : Z) : Z := d * ns_per_day.

(** [.dt.hour] *)
Definition hour_of (t : Z) : Z := (t mod ns_per_day) / ns_per_hour.

(** Proleptic Gregorian calendar: day number to (year, month, day). *)
Definition civil_from_days (days : Z) : Z * Z * Z :=
  let z := days + 719468 in
  let era := z / 146097 in
  let doe := z - era * 146097 in
  let yoe := (doe - doe / 1460 + doe / 36524 - doe / 146096) / 365 in
  let doy := doe - (365 * yoe + yoe / 4 - yoe / 100) in
  let mp := (5 * doy + 2) / 153 in
  let d := doy - (153 * mp + 2) / 5 + 1 in
  let m := if mp <? 10 then mp + 3 else mp - 9 in
  let y := yoe + era * 400 + (if m <=? 2 then 1 else 0) in
  (y, m, d).

(** (year, month, day) to day number. *)
Definition days_from_civil (y m d : Z) : Z :=
  let y' := if m <=? 2 then y - 1 else y in
  let era := y' / 400 in
  let yoe := y' - era * 400 in
  let doy := (153 * (if 2 <? m then m - 3 else m + 9) + 2) / 5 + d - 1 in
  let doe := yoe * 365 + yoe / 4 - yoe / 100 + doy in
  era * 146097 + doe - 719468.

(** [.dt.year] *)
Definition year_of (t : Z) : Z := (civil_from_days (date_of t)).1.1.

(** [.dt.month] *)
Definition month_of (t : Z) : Z := (civil_from_days (date_of t)).1.2.

(** A monthly [Period] is held as its ordinal, the number of months
    since 1970-01; periods compare by ordinal. *)
Definition ym (y m : Z) : Z := (y - 1970) * 12 + (m - 1).

(** [.dt.to_period("M")] *)
Definition to_period_M (t : Z) : Z := ym (year_of t) (month_of t).

(** [Period.year] and [Period.month] *)
Definition period_year (k : Z) : Z := 1970 + k / 12.
Definition period_month (k : Z) : Z := k mod 12 + 1.

(** Literals, for the examples. *)
Definition ymd (y m d : Z) : Z := days_from_civil y m d.
Definition ymd_hms (y m d hh mm ss : Z) : Z :=
  to_datetime (ymd y m d) + ((hh * 60 + mm) * 60 + ss) * 1000000000.

End Time.

(** ** The data frame *)

(** A timestamp field of the CSV file as [pd.to_datetime] sees it: an empty
    field (read as NaN), text that is not a date-time, or text that parses. *)
Inductive cell : Type :=
  | Empty
  | Unparsable
  | Stamp (t : Z).

(** A row as [pd.read_csv] returns it. *)
Record csv_row : Type := CsvRow {
  csv_order_purchase_timestamp : cell;
  csv_order_delivered_customer_date : cell;
  csv_product_category_name : option string;
  csv_payment_type : option string;
  csv_payment_value : option Q;
  csv_customer_id : option string
}.

(** A row of [df] after [load_data]. *)
Record row : Type := Row {
  order_purchase_timestamp : option Z;
  order_delivered_customer_date : option Z;
  product_category_name : option string;
  payment_type : option string;
  payment_value : option Q;
  customer_id : option string;
  shipping_time : option Z;
  order_hour : option Z;
  year_month : option Z
}.

(** ** [load_data] *)

(** [pd.to_datetime(col)]: an empty field becomes NaT, text that does not
    parse raises (outer [None]). *)
Definition to_datetime_raise (c : cell) : option (option Z) :=
  match c with
  | Empty => Some None
  | Unparsable => None
  | Stamp t => Some (Some t)
  end.

(** [pd.to_datetime(col, errors="coerce")]: whatever does not parse is NaT. *)
Definition to_datetime_coerce (c : cell) : option Z :=
  match c with
  | Empty | Unparsable => None
  | Stamp t => Some t
  end.

(** Subtraction of two datetime columns: NaT if either side is NaT. *)
Definition timedelta (a b : option Z) : option Z :=
  match a, b with
  | Some x, Some y => Some (x - y)
  | _, _ => None
  end.

(** [.dt.days] of a timedelta: the floor of its length in days. *)
Definition days (td : option Z) : option Z :=
  (λ x, x / Time.ns_per_day) <$> td.

Definition load_row (c : csv_row) : option row :=
  purchase ← to_datetime_raise (csv_order_purchase_timestamp c);
  let delivered := to_datetime_coerce (csv_order_delivered_customer_date c) in
  Some {|
    order_purchase_timestamp := purchase;
    order_delivered_customer_date := delivered;
    product_category_name := csv_product_category_name c;
    payment_type := csv_payment_type c;
    payment_value := csv_payment_value c;
    customer_id := csv_customer_id c;
    shipping_time := days (timedelta delivered purchase);
    order_hour := Time.hour_of <$> purchase;
    year_month := Time.to_period_M <$> purchase
  |}.

(** The whole file: one unparsable purchase timestamp fails the load. *)
Definition load_data (csv : list csv_row) : option (list row) :=
  mapM load_row csv.

(** ** The sidebar filters *)

Record params : Type := Params {
  start_date : Z;
  end_date : Z;
  selected_category : list string;
  selected_payment : list string;
  min_price : Q;
  max_price : Q
}.

(** [col >= ts] and [col <= ts] on a datetime column: NaT compares false. *)
Definition ge_ts (c : option Z) (ts : Z) : bool :=
  match c with Some t => ts <=? t | None => false end.
Definition le_ts (c : option Z) (ts : Z) : bool :=
  match c with Some t => t <=? ts | None => false end.

(** [col.isin(values)] for a list of strings: NaN is in no such list. *)
Definition isin (c : option string) (values : list string) : bool :=
  match c with Some s => bool_decide (s ∈ values) | None => false end.

(** [col.between(lo, hi)], both ends included; NaN is between nothing. *)
Definition between (c : option Q) (lo hi : Q) : bool :=
  match c with Some v => Qle_bool lo v && Qle_bool v hi | None => false end.

(** The boolean mask of [filtered_df]. *)
Definition mask (p : params) (r : row) : bool :=
  ge_ts (order_purchase_timestamp r) (Time.to_datetime (start_date p)) &&
  le_ts (order_purchase_timestamp r) (Time.to_datetime (end_date p)) &&
  isin (product_category_name r) (selected_category p) &&
  isin (payment_type r) (selected_payment p) &&
  between (payment_value r) (min_price p) (max_price p).

Definition filtered_df (df : list row) (p : params) : list row :=
  filter (λ r, Is_true (mask p r)) df.

(** ** The pandas operations the aggregations are built from *)

(** numpy's default sort, as [sort_values] calls it.  It returns the rows
    rearranged into non-decreasing key order and says nothing about the
    order of rows with equal keys. *)
Class Sorter : Type := {
  sort_by : ∀ {A} (R : relation A) `{!RelDecision R}, list A → list A;
  sort_by_perm : ∀ A (R : relation A) `{!RelDecision R} (l : list A),
    sort_by R l ≡ₚ l;
  sort_by_sorted : ∀ A (R : relation A) `{!RelDecision R} (l : list A),
    Total R → Transitive R → StronglySorted R (sort_by R l)
}.

(** One sorter: merge sort. *)
#[export] Instance merge_sorter : Sorter := {|
  sort_by A R _ l := merge_sort R l;
  sort_by_perm A R _ l := merge_sort_Permutation R l;
  sort_by_sorted A R _ l _ _ := StronglySorted_merge_sort R l
|}.

(** Another one: merge sort of the rows taken in reverse.  It arranges
    rows with equal keys differently. *)
Definition reversing_sorter : Sorter := {|
  sort_by A R _ l := merge_sort R (reverse l);
  sort_by_perm A R _ l :=
    transitivity (merge_sort_Permutation R (reverse l)) (reverse_Permutation l);
  sort_by_sorted A R _ l _ _ := StronglySorted_merge_sort R (reverse l)
|}.

(** [GroupBy.sum] on a float64 column adds the values of a group one after
    the other, in row order, each addition rounded to float64.  The
    rounding is not modelled: the sum is taken by contract, as a function
    of the values added, in their order, that is 0 when there is none. *)
Class FloatSum : Type := {
  fsum : list Q → Q;
  fsum_nil : fsum [] = 0%Q
}.

(** One such function: addition without rounding. *)
#[export] Instance exact_sum : FloatSum := {|
  fsum := foldr Qplus 0%Q;
  fsum_nil := eq_refl
|}.

Module Pd.

(** [col.dropna()] *)
Definition dropna {A} (col : list (option A)) : list A := omap id col.

(** [series.dropna()] for a labelled series. *)
Definition dropna_values {K A} (s : list (K * option A)) : list (K * A) :=
  omap (λ kv, (λ v, (kv.1, v)) <$> kv.2) s.

(** [col.unique()]: the distinct values in order of first appearance. *)
Fixpoint unique_from `{EqDecision A} (seen l : list A) : list A :=
  match l with
  | [] => []
  | x :: l' =>
      if decide (x ∈ seen) then unique_from seen l'
      else x :: unique_from (x :: seen) l'
  end.
Definition unique `{EqDecision A} (l : list A) : list A := unique_from [] l.

(** [col.nunique()]: NaN is not counted. *)
Definition nunique `{EqDecision A} (col : list (option A)) : nat :=
  length (unique (dropna col)).

(** Number of cells equal to [x]. *)
Definition count `{EqDecision A} (x : A) (l : list A) : nat :=
  length (filter (x =.) l).

(** [.head(n)] *)
Definition head {A} (n : nat) (l : list A) : list A := take n l.

(** [col.sum()]: NaN is skipped, the empty sum is 0. *)
Definition sum (col : list (option Q)) : Q := foldr Qplus 0%Q (dropna col).

(** [grouped[col].sum()] for one group: NaN is skipped, and the sum of no
    value at all is 0. *)
Definition group_sum `{FloatSum} (col : list (option Q)) : Q :=
  fsum (dropna col).

(** [col.mean()] of a column of whole numbers: NaN is skipped, and the
    mean of no value at all is NaN. *)
Definition mean (col : list (option Z)) : option Q :=
  match dropna col with
  | [] => None
  | v :: vs => Some (Qmake (foldr Z.add 0 (v :: vs)) (Pos.of_nat (length (v :: vs))))
  end.

(** [col.min()] and [col.max()]: NaN is skipped. *)
Definition minimum {A} (mn : A → A → A) (col : list (option A)) : option A :=
  match dropna col with
  | [] => None
  | v :: vs => Some (foldr mn v vs)
  end.
Definition min_ts : list (option Z) → option Z := minimum Z.min.
Definition max_ts : list (option Z) → option Z := minimum Z.max.
Definition min_value : list (option Q) → option Q :=
  minimum (λ a b, if Qle_bool a b then a else b).
Definition max_value : list (option Q) → option Q :=
  minimum (λ a b, if Qle_bool a b then b else a).

(** Rows compared by their value alone, as the sort sees them. *)
Definition count_le {K} : relation (K * nat) := λ a b, (a.2 ≤ b.2)%nat.
Definition value_le {K} : relation (K * Q) := λ a b, Qle_bool a.2 b.2.

#[export] Instance count_le_dec {K} : RelDecision (@count_le K) :=
  λ a b, decide (a.2 ≤ b.2)%nat.
#[export] Instance value_le_dec {K} : RelDecision (@value_le K) :=
  λ a b, decide (Is_true (Qle_bool a.2 b.2)).

(** The count table of [value_counts] before it is sorted: one line per
    distinct value that is not NaN, in order of first appearance. *)
Definition count_table `{EqDecision A} (col : list (option A))
    : list (A * nat) :=
  (λ k, (k, count k (dropna col))) <$> unique (dropna col).

(** [series.sort_values(ascending=True)] *)
Definition sort_values_asc `{Sorter} {K} (s : list (K * Q)) : list (K * Q) :=
  sort_by value_le s.

(** [series.sort_values(ascending=False)] on counts; pandas reverses the
    rows, sorts them in ascending order and reverses the outcome. *)
Definition sort_counts_desc `{Sorter} {K} (s : list (K * nat))
    : list (K * nat) :=
  reverse (sort_by count_le (reverse s)).

(** [col.value_counts()] *)
Definition value_counts `{Sorter} `{EqDecision A} (col : list (option A))
    : list (A * nat) :=
  sort_counts_desc (count_table col).

(** [df.groupby(key)]: the groups, by ascending key; rows whose key is
    NaN belong to no group.  The keys are distinct, so their ascending
    arrangement is the same for every sorting algorithm. *)
Definition groupby {R : Type} `{EqDecision K} (le : relation K)
    `{!RelDecision le} (key : R → option K) (df : list R)
    : list (K * list R) :=
  (λ k, (k, filter (λ r, key r = Some k) df))
    <$> merge_sort le (unique (dropna (key <$> df))).

End Pd.

(** ** The four aggregations *)

(** Tab 1: [value_counts().head(10)] of the category column. *)
Definition top_categories `{Sorter} (view : list row) : list (string * nat) :=
  Pd.head 10 (Pd.value_counts (product_category_name <$> view)).

(** [col.dt.year == y]: false on NaT. *)
Definition year_eq (y : Z) (r : row) : bool :=
  match order_purchase_timestamp r with
  | Some t => Time.year_of t =? y
  | None => false
  end.

(** Tab 2: revenue per month of the rows bought in 2018. *)
Definition monthly_revenue `{FloatSum} (view : list row) : list (Z * Q) :=
  (λ g, (g.1, Pd.group_sum (payment_value <$> g.2)))
    <$> Pd.groupby Z.le year_month (filter (λ r, Is_true (year_eq 2018 r)) view).

(** Tab 3: the column handed to the histogram. *)
Definition order_hours (view : list row) : list (option Z) :=
  order_hour <$> view.

(** The per-category means of tab 4, before they are sorted. *)
Definition mean_shipping_time (view : list row) : list (string * option Q) :=
  (λ g, (g.1, Pd.mean (shipping_time <$> g.2)))
    <$> Pd.groupby String.le product_category_name view.

(** Tab 4: the ten categories with the least mean shipping time. *)
Definition avg_shipping_time `{Sorter} (view : list row) : list (string * Q) :=
  Pd.head 10 (Pd.sort_values_asc (Pd.dropna_values (mean_shipping_time view))).

(** ** The three summary metrics *)

Definition total_orders (view : list row) : nat := length view.

Definition total_customers (view : list row) : nat :=
  Pd.nunique (customer_id <$> view).

Definition total_revenue (view : list row) : Q :=
  Pd.sum (payment_value <$> view).

(** ** The widest choice the sidebar offers

    The start and end dates default to the dates of the first and the last
    purchase, the price slider spans the least and the greatest payment
    value, and the two multiselects offer the distinct categories and
    payment types that are not NaN.  A frame without any purchase
    timestamp or any payment value has no such bounds ([min()] and [max()]
    are NaT or NaN there, and [NaT.date()] raises). *)
Definition full_bounds (df : list row) : option params :=
  first_purchase ← Pd.min_ts (order_purchase_timestamp <$> df);
  last_purchase ← Pd.max_ts (order_purchase_timestamp <$> df);
  lo ← Pd.min_value (payment_value <$> df);
  hi ← Pd.max_value (payment_value <$> df);
  Some {|
    start_date := Time.date_of first_purchase;
    end_date := Time.date_of last_purchase;
    selected_category := Pd.unique (Pd.dropna (product_category_name <$> df));
    selected_payment := Pd.unique (Pd.dropna (payment_type <$> df));
    min_price := lo;
    max_price := hi
  |}.

(** ** The claim of the specification about the date bounds, in its words

    The specification states the date part of the filter on the calendar day
    of the purchase: [start_date ≤ purchase_date ≤ end_date]. *)
Definition spec_date_in_range (p : params) (r : row) : Prop :=
  ∃ t, order_purchase_timestamp r = Some t ∧
       start_date p ≤ Time.date_of t ≤ end_date p.

Definition spec_inclusion (p : params) (r : row) : Prop :=
  spec_date_in_range p r ∧
  (∃ c, product_category_name r = Some c ∧ c ∈ selected_category p) ∧
  (∃ m, payment_type r = Some m ∧ m ∈ selected_payment p) ∧
  (∃ v, payment_value r = Some v ∧ (min_price p <= v)%Q ∧ (v <= max_price p)%Q).

(** What the code compares instead: the purchase instant with the midnights
    that open the two days. *)
Definition code_inclusion (p : params) (r : row) : Prop :=
  (∃ t, order_purchase_timestamp r = Some t ∧
        Time.to_datetime (start_date p) ≤ t ≤ Time.to_datetime (end_date p)) ∧
  (∃ c, product_category_name r = Some c ∧ c ∈ selected_category p) ∧
  (∃ m, payment_type r = Some m ∧ m ∈ selected_payment p) ∧
  (∃ v, payment_value r = Some v ∧ (min_price p <= v)%Q ∧ (v <= max_price p)%Q).

(** A row whose derived columns are the ones [load_data] computes. *)
Definition loaded (r : row) : Prop :=
  shipping_time r =
    days (timedelta (order_delivered_customer_date r) (order_purchase_timestamp r)) ∧
  order_hour r = Time.hour_of <$> order_purchase_timestamp r ∧
  year_month r = Time.to_period_M <$> order_purchase_timestamp r.

(** ** The options and the defaults of the sidebar *)

(** The options of the two multiselects: the distinct values of the column
    that are not NaN, in order of first appearance. *)
Definition categories (df : list row) : list string :=
  Pd.unique (Pd.dropna (product_category_name <$> df)).

Definition payment_methods (df : list row) : list string :=
  Pd.unique (Pd.dropna (payment_type <$> df)).

(** The sidebar as it opens: the dates of the first and the last purchase,
    the first five categories ([categories[:5]]; a slice of a shorter array
    is the whole array), every payment method, the whole price range. *)
Definition sidebar_defaults (df : list row) : option params :=
  first_purchase ← Pd.min_ts (order_purchase_timestamp <$> df);
  last_purchase ← Pd.max_ts (order_purchase_timestamp <$> df);
  lo ← Pd.min_value (payment_value <$> df);
  hi ← Pd.max_value (payment_value <$> df);
  Some {|
    start_date := Time.date_of first_purchase;
    end_date := Time.date_of last_purchase;
    selected_category := take 5 (categories df);
    selected_payment := payment_methods df;
    min_price := lo;
    max_price := hi
  |}.

(** Sidebar [p] selects no more than sidebar [q]: a shorter date range, a
    narrower price range, fewer categories and payment methods. *)
Definition narrower (p q : params) : Prop :=
  start_date q ≤ start_date p ∧
  end_date p ≤ end_date q ∧
  selected_category p ⊆ selected_category q ∧
  selected_payment p ⊆ selected_payment q ∧
  (min_price q <= min_price p)%Q ∧
  (max_price p <= max_price q)%Q.

(** ** Sample data for the examples below *)

Module Sample.

(** A row bought in the afternoon of 2018-08-01. *)
Definition first_day_order : row := {|
  order_purchase_timestamp := Some (Time.ymd_hms 2018 8 1 15 0 0);
  order_delivered_customer_date := Some (Time.ymd_hms 2018 8 4 15 0 0);
  product_category_name := Some "toys";
  payment_type := Some "credit_card";
  payment_value := Some 100%Q;
  customer_id := Some "A";
  shipping_time := Some 3;
  order_hour := Some 15;
  year_month := Some (Time.ym 2018 8)
|}.

(** A row bought in the afternoon of 2018-08-29, not delivered yet. *)
Definition last_day_order : row := {|
  order_purchase_timestamp := Some (Time.ymd_hms 2018 8 29 15 0 0);
  order_delivered_customer_date := None;
  product_category_name := Some "toys";
  payment_type := Some "credit_card";
  payment_value := Some 100%Q;
  customer_id := Some "B";
  shipping_time := None;
  order_hour := Some 15;
  year_month := Some (Time.ym 2018 8)
|}.

(** A row bought at 2018-08-29 00:00:00 sharp. *)
Definition midnight_order : row := {|
  order_purchase_timestamp := Some (Time.ymd_hms 2018 8 29 0 0 0);
  order_delivered_customer_date := None;
  product_category_name := Some "toys";
  payment_type := Some "credit_card";
  payment_value := Some 250%Q;
  customer_id := Some "B";
  shipping_time := None;
  order_hour := Some 0;
  year_month := Some (Time.ym 2018 8)
|}.

(** A row whose category field is empty in the file. *)
Definition uncategorised_order : row := {|
  order_purchase_timestamp := Some (Time.ymd_hms 2018 8 1 9 30 0);
  order_delivered_customer_date := Some (Time.ymd_hms 2018 8 3 9 0 0);
  product_category_name := None;
  payment_type := Some "boleto";
  payment_value := Some 40%Q;
  customer_id := Some "C";
  shipping_time := Some 1;
  order_hour := Some 9;
  year_month := Some (Time.ym 2018 8)
|}.

(** The sidebar set to August 1st .. August 29th 2018. *)
Definition august : params := {|
  start_date := Time.ymd 2018 8 1;
  end_date := Time.ymd 2018 8 29;
  selected_category := ["toys"];
  selected_payment := ["credit_card"];
  min_price := 0%Q;
  max_price := 1000%Q
|}.

(** A line of the file whose purchase field is empty. *)
Definition csv_undated : csv_row := {|
  csv_order_purchase_timestamp := Empty;
  csv_order_delivered_customer_date := Stamp (Time.ymd_hms 2018 3 8 10 0 0);
  csv_product_category_name := Some "toys";
  csv_payment_type := Some "credit_card";
  csv_payment_value := Some 100%Q;
  csv_customer_id := Some "A"
|}.

(** [csv_undated] as [load_data] returns it. *)
Definition undated : row := {|
  order_purchase_timestamp := None;
  order_delivered_customer_date := Some (Time.ymd_hms 2018 3 8 10 0 0);
  product_category_name := Some "toys";
  payment_type := Some "credit_card";
  payment_value := Some 100%Q;
  customer_id := Some "A";
  shipping_time := None;
  order_hour := None;
  year_month := None
|}.

(** A line bought 2018-03-05 10:00 and delivered 2018-03-08 10:00. *)
Definition csv_delivered : csv_row := {|
  csv_order_purchase_timestamp := Stamp (Time.ymd_hms 2018 3 5 10 0 0);
  csv_order_delivered_customer_date := Stamp (Time.ymd_hms 2018 3 8 10 0 0);
  csv_product_category_name := Some "toys";
  csv_payment_type := Some "credit_card";
  csv_payment_value := Some 100%Q;
  csv_customer_id := Some "A"
|}.

(** [csv_delivered] as [load_data] returns it. *)
Definition delivered : row := {|
  order_purchase_timestamp := Some (Time.ymd_hms 2018 3 5 10 0 0);
  order_delivered_customer_date := Some (Time.ymd_hms 2018 3 8 10 0 0);
  product_category_name := Some "toys";
  payment_type := Some "credit_card";
  payment_value := Some 100%Q;
  customer_id := Some "A";
  shipping_time := Some 3;
  order_hour := Some 10;
  year_month := Some (Time.ym 2018 3)
|}.

(** A line bought 2018-03-05 10:00 whose delivery field is not a date. *)
Definition csv_in_transit : csv_row := {|
  csv_order_purchase_timestamp := Stamp (Time.ymd_hms 2018 3 5 10 0 0);
  csv_order_delivered_customer_date := Unparsable;
  csv_product_category_name := Some "books";
  csv_payment_type := Some "boleto";
  csv_payment_value := Some 200%Q;
  csv_customer_id := None
|}.

(** A line whose purchase field is not a date. *)
Definition csv_garbled : csv_row := {|
  csv_order_purchase_timestamp := Unparsable;
  csv_order_delivered_customer_date := Empty;
  csv_product_category_name := Some "books";
  csv_payment_type := Some "boleto";
  csv_payment_value := Some 200%Q;
  csv_customer_id := Some "B"
|}.

(** A sidebar with no category selected. *)
Definition nothing_selected : params := {|
  start_date := Time.ymd 2018 8 1;
  end_date := Time.ymd 2018 8 29;
  selected_category := [];
  selected_payment := ["credit_card"];
  min_price := 0%Q;
  max_price := 1000%Q
|}.

(** A file of five lines: one bought in the last second of 2017, four in
    2018 (March, January, January, March), the last one of another
    category and payment type. *)
Definition csv_two_years : list csv_row := [
  {| csv_order_purchase_timestamp := Stamp (Time.ymd_hms 2017 12 31 23 59 59);
     csv_order_delivered_customer_date := Stamp (Time.ymd_hms 2018 1 9 12 0 0);
     csv_product_category_name := Some "toys";
     csv_payment_type := Some "credit_card";
     csv_payment_value := Some 70%Q;
     csv_customer_id := Some "A" |};
  csv_delivered;
  {| csv_order_purchase_timestamp := Stamp (Time.ymd_hms 2018 1 10 8 0 0);
     csv_order_delivered_customer_date := Empty;
     csv_product_category_name := Some "toys";
     csv_payment_type := Some "credit_card";
     csv_payment_value := Some 50%Q;
     csv_customer_id := Some "B" |};
  {| csv_order_purchase_timestamp := Stamp (Time.ymd_hms 2018 1 20 21 30 0);
     csv_order_delivered_customer_date := Stamp (Time.ymd_hms 2018 1 22 9 0 0);
     csv_product_category_name := Some "toys";
     csv_payment_type := Some "credit_card";
     csv_payment_value := Some 100%Q;
     csv_customer_id := None |};
  csv_in_transit
].

(** The frame [load_data] makes of it. *)
Definition two_years : list row := default [] (load_data csv_two_years).

(** A sidebar that spans 2017 and 2018 and selects toys paid by card. *)
Definition toys_by_card : params := {|
  start_date := Time.ymd 2017 1 1;
  end_date := Time.ymd 2018 12 31;
  selected_category := ["toys"];
  selected_payment := ["credit_card"];
  min_price := 0%Q;
  max_price := 1000%Q
|}.

(** A row of a given category and shipping time, bought 2018-05-01 12:00. *)
Definition order (c : option string) (ship : option Z) : row := {|
  order_purchase_timestamp := Some (Time.ymd_hms 2018 5 1 12 0 0);
  order_delivered_customer_date :=
    (λ s, Time.ymd_hms 2018 5 1 12 0 0 + s * Time.ns_per_day) <$> ship;
  product_category_name := c;
  payment_type := Some "boleto";
  payment_value := Some 10%Q;
  customer_id := Some "A";
  shipping_time := ship;
  order_hour := Some 12;
  year_month := Some (Time.ym 2018 5)
|}.

(** Three categories and a row without one; no toy was delivered. *)
Definition shop : list row := [
  order (Some "toys") None;
  order (Some "bed") (Some 4);
  order None (Some 1);
  order (Some "bed") (Some 7);
  order (Some "art") (Some 2);
  order (Some "bed") None;
  order (Some "art") (Some 3)
].

(** Twelve categories; the first is bought three times, the others once,
    and the row of category [k] takes as many days as the position of [k]
    from the end of the list. *)
Definition bazaar : list row :=
  order (Some "a") (Some 11) :: order (Some "a") (Some 11) ::
  imap (λ i c, order (Some c) (Some (11 - Z.of_nat i)))
    ["a"; "b"; "c"; "d"; "e"; "f"; "g"; "h"; "i"; "j"; "k"; "l"].

(** A sidebar with the end date before the start date. *)
Definition backwards : params := {|
  start_date := Time.ymd 2018 8 29;
  end_date := Time.ymd 2018 8 1;
  selected_category := ["toys"];
  selected_payment := ["credit_card"];
  min_price := 0%Q;
  max_price := 1000%Q
|}.

(** The first week of August 2018, toys by card up to 500. *)
Definition first_week : params := {|
  start_date := Time.ymd 2018 8 1;
  end_date := Time.ymd 2018 8 7;
  selected_category := ["toys"];
  selected_payment := ["credit_card"];
  min_price := 0%Q;
  max_price := 500%Q
|}.

(** The bounds taken from the frame of [first_day_order] and
    [last_day_order]. *)
Definition august_observed : params := {|
  start_date := Time.ymd 2018 8 1;
  end_date := Time.ymd 2018 8 29;
  selected_category := ["toys"];
  selected_payment := ["credit_card"];
  min_price := 100%Q;
  max_price := 100%Q
|}.

(** The sidebar as it opens on [bazaar]. *)
Definition bazaar_opening : params := {|
  start_date := Time.ymd 2018 5 1;
  end_date := Time.ymd 2018 5 1;
  selected_category := ["a"; "b"; "c"; "d"; "e"];
  selected_payment := ["boleto"];
  min_price := 10%Q;
  max_price := 10%Q
|}.

(** The first line of [csv_two_years] as [load_data] returns it. *)
Definition new_years_eve : row := {|
  order_purchase_timestamp := Some (Time.ymd_hms 2017 12 31 23 59 59);
  order_delivered_customer_date := Some (Time.ymd_hms 2018 1 9 12 0 0);
  product_category_name := Some "toys";
  payment_type := Some "credit_card";
  payment_value := Some 70%Q;
  customer_id := Some "A";
  shipping_time := Some 8;
  order_hour := Some 23;
  year_month := Some (Time.ym 2017 12)
|}.

(** The widest bounds for the frame of [uncategorised_order] and
    [midnight_order]. *)
Definition widest : params := {|
  start_date := Time.ymd 2018 8 1;
  end_date := Time.ymd 2018 8 29;
  selected_category := ["toys"];
  selected_payment := ["boleto"; "credit_card"];
  min_price := 40%Q;
  max_price := 250%Q
|}.

End Sample.

(** * Properties *)

(** Closed goals about sample data: evaluate, or decide. *)
Ltac by_evaluation :=
  repeat split;
  first [ reflexivity
        | by vm_compute
        | by apply (bool_decide_unpack _); vm_compute ].

(** ** Calendar facts *)

Example ymd_epoch : Time.ymd 1970 1 1 = 0 ∧ Time.civil_from_days 0 = (1970, 1, 1).
Proof. by_evaluation. Qed.

Example civil_leap_day :
  Time.civil_from_days (Time.ymd 2016 2 29) = (2016, 2, 29) ∧
  Time.ymd 2016 3 1 - Time.ymd 2016 2 28 = 2 ∧
  Time.ymd 2018 3 1 - Time.ymd 2018 2 28 = 1.
Proof. by_evaluation. Qed.

Example timestamp_parts :
  let t := Time.ymd_hms 2018 3 5 10 0 0 in
  t = 1520244000 * 1000000000 ∧
  Time.civil_from_days (Time.date_of t) = (2018, 3, 5) ∧
  Time.hour_of t = 10 ∧
  Time.to_period_M t = Time.ym 2018 3 ∧
  Time.to_datetime (Time.date_of t) = Time.ymd_hms 2018 3 5 0 0 0.
Proof. by_evaluation. Qed.

Lemma ns_per_day_pos : 0 < Time.ns_per_day.
Proof. reflexivity. Qed.

Lemma to_datetime_date_of_le (t : Z) : Time.to_datetime (Time.date_of t) ≤ t.
Proof.
  unfold Time.to_datetime, Time.date_of.
  pose proof (Z.mul_div_le t _ ns_per_day_pos). lia.
Qed.

Lemma date_of_to_datetime (d : Z) : Time.date_of (Time.to_datetime d) = d.
Proof.
  unfold Time.to_datetime, Time.date_of.
  apply Z.div_mul. pose proof ns_per_day_pos. lia.
Qed.

Lemma to_datetime_midnight (d : Z) : Time.to_datetime d mod Time.ns_per_day = 0.
Proof. unfold Time.to_datetime. apply Z.mod_mul. pose proof ns_per_day_pos. lia. Qed.

Lemma timestamp_split (t : Z) :
  t = Time.to_datetime (Time.date_of t) + t mod Time.ns_per_day.
Proof.
  unfold Time.to_datetime, Time.date_of.
  pose proof (Z.div_mod t Time.ns_per_day). pose proof ns_per_day_pos. lia.
Qed.

Lemma date_of_mono (t u : Z) : t ≤ u → Time.date_of t ≤ Time.date_of u.
Proof. intros. apply Z.div_le_mono; [apply ns_per_day_pos | done]. Qed.

Lemma date_le_to_datetime (d t : Z) :
  Time.to_datetime d ≤ t ↔ d ≤ Time.date_of t.
Proof.
  split; intros H.
  - rewrite <- (date_of_to_datetime d). by apply date_of_mono.
  - pose proof (to_datetime_date_of_le t). unfold Time.to_datetime in *.
    pose proof ns_per_day_pos. nia.
Qed.

Lemma hour_of_range (t : Z) : 0 ≤ Time.hour_of t ≤ 23.
Proof.
  unfold Time.hour_of.
  pose proof (Z.mod_pos_bound t Time.ns_per_day ns_per_day_pos) as Hm.
  split.
  - apply Z.div_pos; [lia | reflexivity].
  - assert (t mod Time.ns_per_day / Time.ns_per_hour < 24); [|lia].
    apply Z.div_lt_upper_bound; [reflexivity|].
    change (Time.ns_per_hour * 24) with Time.ns_per_day. lia.
Qed.

Lemma month_of_range (t : Z) : 1 ≤ Time.month_of t ≤ 12.
Proof.
  unfold Time.month_of, Time.civil_from_days. cbn [fst snd].
  generalize (Time.date_of t + 719468). intros z.
  set (doe := z - z / 146097 * 146097).
  assert (0 ≤ doe < 146097) as Hdoe
    by (subst doe; Z.to_euclidean_division_equations; lia).
  clearbody doe.
  set (yoe := (doe - doe / 1460 + doe / 36524 - doe / 146096) / 365).
  set (doy := doe - (365 * yoe + yoe / 4 - yoe / 100)).
  assert (0 ≤ doy ≤ 365) as Hdoy
    by (subst doy yoe; Z.to_euclidean_division_equations; lia).
  clearbody doy.
  assert (0 ≤ (5 * doy + 2) / 153 ≤ 11) as Hmp
    by (Z.to_euclidean_division_equations; lia).
  destruct (Z.ltb_spec ((5 * doy + 2) / 153) 10); lia.
Qed.

Lemma period_year_ym (y m : Z) : 1 ≤ m ≤ 12 → Time.period_year (Time.ym y m) = y.
Proof.
  intros Hm. unfold Time.period_year, Time.ym.
  Z.to_euclidean_division_equations; lia.
Qed.

Lemma period_month_ym (y m : Z) : 1 ≤ m ≤ 12 → Time.period_month (Time.ym y m) = m.
Proof.
  intros Hm. unfold Time.period_month, Time.ym.
  Z.to_euclidean_division_equations; lia.
Qed.

Lemma period_year_to_period_M (t : Z) :
  Time.period_year (Time.to_period_M t) = Time.year_of t.
Proof. apply period_year_ym, month_of_range. Qed.

Lemma period_month_to_period_M (t : Z) :
  Time.period_month (Time.to_period_M t) = Time.month_of t.
Proof. apply period_month_ym, month_of_range. Qed.

(** ** The filter *)

Lemma isin_spec (c : option string) (values : list string) :
  isin c values ↔ ∃ s, c = Some s ∧ s ∈ values.
Proof.
  destruct c as [s|]; simpl.
  - rewrite bool_decide_spec. naive_solver.
  - naive_solver.
Qed.

Lemma Qle_bool_Is_true (x y : Q) : Qle_bool x y ↔ (x <= y)%Q.
Proof. rewrite Is_true_true. apply Qle_bool_iff. Qed.

Lemma between_spec (c : option Q) (lo hi : Q) :
  between c lo hi ↔ ∃ v, c = Some v ∧ (lo <= v)%Q ∧ (v <= hi)%Q.
Proof.
  destruct c as [v|]; simpl.
  - rewrite andb_True, !Qle_bool_Is_true. naive_solver.
  - naive_solver.
Qed.

Lemma ge_le_ts_spec (c : option Z) (lo hi : Z) :
  ge_ts c lo && le_ts c hi ↔ ∃ t, c = Some t ∧ lo ≤ t ≤ hi.
Proof.
  destruct c as [t|]; simpl.
  - rewrite andb_True, !Is_true_true, !Z.leb_le. naive_solver.
  - naive_solver.
Qed.

(** The mask is the conjunction the code writes. *)
Lemma mask_spec (p : params) (r : row) : mask p r ↔ code_inclusion p r.
Proof.
  unfold mask, code_inclusion.
  rewrite !andb_True, <- andb_True, ge_le_ts_spec, !isin_spec, between_spec.
  tauto.
Qed.

Lemma elem_of_filtered_df (df : list row) (p : params) (r : row) :
  r ∈ filtered_df df p ↔ r ∈ df ∧ code_inclusion p r.
Proof.
  unfold filtered_df. rewrite list_elem_of_filter, mask_spec. tauto.
Qed.

(** On the start side the midnight bound and the calendar day agree; on the
    end side the midnight bound is the stronger one. *)
Lemma code_inclusion_spec_inclusion (p : params) (r : row) :
  code_inclusion p r → spec_inclusion p r.
Proof.
  intros ([t [Ht [Hlo Hhi]]] & Hrest). split; [|done].
  exists t. split; [done|]. split.
  - by apply date_le_to_datetime.
  - rewrite <- (date_of_to_datetime (end_date p)). by apply date_of_mono.
Qed.

Lemma spec_inclusion_code_inclusion (p : params) (r : row) (t : Z) :
  order_purchase_timestamp r = Some t →
  t ≤ Time.to_datetime (end_date p) →
  spec_inclusion p r → code_inclusion p r.
Proof.
  intros Ht Hle ([t' [Ht' [Hlo Hhi]]] & Hrest). split; [|done].
  exists t. split; [done|]. simplify_eq. split; [|done].
  by apply date_le_to_datetime.
Qed.

Lemma filtered_df_loaded (df : list row) (p : params) :
  Forall loaded df → Forall loaded (filtered_df df p).
Proof.
  rewrite !Forall_forall. intros H r Hr.
  apply elem_of_filtered_df in Hr. apply H, Hr.
Qed.

(** ** Columns: [dropna], [unique], [min], [max] *)

Lemma elem_of_dropna {A} (col : list (option A)) (x : A) :
  x ∈ Pd.dropna col ↔ Some x ∈ col.
Proof.
  unfold Pd.dropna. rewrite list_elem_of_omap. split.
  - intros (o & Ho & Heq). simpl in Heq. by subst.
  - intros H. by exists (Some x).
Qed.

Lemma elem_of_dropna_fmap {R A} (f : R → option A) (df : list R) (x : A) :
  x ∈ Pd.dropna (f <$> df) ↔ ∃ r, r ∈ df ∧ f r = Some x.
Proof. rewrite elem_of_dropna, list_elem_of_fmap. naive_solver. Qed.

Lemma elem_of_unique_from `{EqDecision A} (seen l : list A) (x : A) :
  x ∈ Pd.unique_from seen l ↔ x ∈ l ∧ x ∉ seen.
Proof.
  revert seen. induction l as [|y l IH]; intros seen; simpl.
  - rewrite elem_of_nil. naive_solver.
  - case_decide.
    + rewrite IH, elem_of_cons. naive_solver.
    + rewrite !elem_of_cons, IH, not_elem_of_cons.
      destruct (decide (x = y)); naive_solver.
Qed.

Lemma NoDup_unique_from `{EqDecision A} (seen l : list A) :
  NoDup (Pd.unique_from seen l).
Proof.
  revert seen. induction l as [|y l IH]; intros seen; simpl.
  - constructor.
  - case_decide; [done|]. constructor; [|done].
    rewrite elem_of_unique_from, not_elem_of_cons. naive_solver.
Qed.

Lemma elem_of_unique `{EqDecision A} (l : list A) (x : A) :
  x ∈ Pd.unique l ↔ x ∈ l.
Proof.
  unfold Pd.unique. rewrite elem_of_unique_from.
  pose proof (not_elem_of_nil x). naive_solver.
Qed.

Lemma NoDup_unique `{EqDecision A} (l : list A) : NoDup (Pd.unique l).
Proof. apply NoDup_unique_from. Qed.

Section minimum.
Context {A : Type} (R : relation A) (mn : A → A → A).
Context `{!Reflexive R, !Transitive R}.
Hypothesis mn_l : ∀ a b, R (mn a b) a.
Hypothesis mn_r : ∀ a b, R (mn a b) b.

Lemma foldr_lower_bound (v : A) (vs : list A) (x : A) :
  x ∈ v :: vs → R (foldr mn v vs) x.
Proof using All.
  induction vs as [|w vs IH]; simpl.
  - intros ->%list_elem_of_singleton. reflexivity.
  - rewrite elem_of_cons, elem_of_cons. intros [->|[->|Hx]].
    + etrans; [apply mn_r|]. apply IH. left.
    + apply mn_l.
    + etrans; [apply mn_r|]. apply IH. by right.
Qed.

Lemma minimum_lower_bound (col : list (option A)) (lo x : A) :
  Pd.minimum mn col = Some lo → Some x ∈ col → R lo x.
Proof using All.
  unfold Pd.minimum. intros Hmin Hx%elem_of_dropna.
  destruct (Pd.dropna col) as [|v vs]; [done|].
  simplify_eq. by apply foldr_lower_bound.
Qed.
End minimum.

Lemma min_ts_le (col : list (option Z)) (lo t : Z) :
  Pd.min_ts col = Some lo → Some t ∈ col → lo ≤ t.
Proof.
  unfold Pd.min_ts. apply (minimum_lower_bound Z.le); [apply _ .. | |]; intros; lia.
Qed.

Lemma max_ts_ge (col : list (option Z)) (hi t : Z) :
  Pd.max_ts col = Some hi → Some t ∈ col → t ≤ hi.
Proof.
  unfold Pd.max_ts.
  apply (minimum_lower_bound (flip Z.le)); [apply _ .. | |]; unfold flip; intros; lia.
Qed.

Lemma Qle_bool_false (a b : Q) : Qle_bool a b = false → (b <= a)%Q.
Proof.
  intros H. apply Qlt_le_weak, Qnot_le_lt. intros Hle.
  apply Qle_bool_iff in Hle. congruence.
Qed.

Lemma min_value_le (col : list (option Q)) (lo v : Q) :
  Pd.min_value col = Some lo → Some v ∈ col → (lo <= v)%Q.
Proof.
  unfold Pd.min_value.
  apply (minimum_lower_bound Qle); [exact Qle_refl | exact Qle_trans | |].
  - intros a b. destruct (Qle_bool a b) eqn:E; [apply Qle_refl|].
    by apply Qle_bool_false.
  - intros a b. destruct (Qle_bool a b) eqn:E; [|apply Qle_refl].
    by apply Qle_bool_iff.
Qed.

Lemma max_value_ge (col : list (option Q)) (hi v : Q) :
  Pd.max_value col = Some hi → Some v ∈ col → (v <= hi)%Q.
Proof.
  unfold Pd.max_value.
  apply (minimum_lower_bound (flip Qle)); unfold flip;
    [exact Qle_refl | exact (λ x y z H1 H2, Qle_trans _ _ _ H2 H1) | |].
  - intros a b. destruct (Qle_bool a b) eqn:E; [|apply Qle_refl].
    by apply Qle_bool_iff.
  - intros a b. destruct (Qle_bool a b) eqn:E; [apply Qle_refl|].
    by apply Qle_bool_false.
Qed.

(** ** The filtered view *)

(** C1 (the code departs from the claim).  The specification admits a row
    when the calendar day of its purchase lies between [start_date] and
    [end_date], both included.  The code keeps the whole first day, as
    claimed, and drops the last one: of two rows alike in everything but
    the day, bought at 15:00 on the start date and at 15:00 on the end date,
    with the category, the payment type and the price all selected, only
    the first is in the filtered view. *)
Theorem end_date_afternoon_dropped :
  spec_inclusion Sample.august Sample.first_day_order ∧
  spec_inclusion Sample.august Sample.last_day_order ∧
  filtered_df [Sample.first_day_order; Sample.last_day_order] Sample.august
    = [Sample.first_day_order].
Proof.
  split_and!.
  - split_and!; [exists (Time.ymd_hms 2018 8 1 15 0 0) | exists "toys"
      | exists "credit_card" | exists 100%Q ]; by_evaluation.
  - split_and!; [exists (Time.ymd_hms 2018 8 29 15 0 0) | exists "toys"
      | exists "credit_card" | exists 100%Q ]; by_evaluation.
  - by_evaluation.
Qed.

(** C10.  The upper end of the date filter is the instant 00:00:00 that
    opens [end_date]: a row bought on [end_date] after midnight fails the
    comparison [order_purchase_timestamp <= pd.to_datetime(end_date)], and
    so it is in no filtered view, whatever the other filters are. *)
Theorem end_date_bound_is_midnight (df : list row) (p : params) (r : row) (t : Z) :
  order_purchase_timestamp r = Some t →
  Time.date_of t = end_date p →
  0 < t mod Time.ns_per_day →
  Time.to_datetime (end_date p) mod Time.ns_per_day = 0 ∧
  le_ts (order_purchase_timestamp r) (Time.to_datetime (end_date p)) = false ∧
  r ∉ filtered_df df p.
Proof.
  intros Ht Hday Hafter.
  assert (Time.to_datetime (end_date p) < t) as Hlt.
  { pose proof (timestamp_split t) as Hs. rewrite Hday in Hs. lia. }
  split_and!.
  - apply to_datetime_midnight.
  - rewrite Ht. simpl. apply Z.leb_gt, Hlt.
  - rewrite elem_of_filtered_df. intros [_ [(t' & Ht' & Hb) _]].
    simplify_eq. lia.
Qed.

Lemma end_date_bound_is_midnight_witness :
  order_purchase_timestamp Sample.last_day_order
    = Some (Time.ymd_hms 2018 8 29 15 0 0) ∧
  Time.date_of (Time.ymd_hms 2018 8 29 15 0 0) = end_date Sample.august ∧
  0 < Time.ymd_hms 2018 8 29 15 0 0 mod Time.ns_per_day ∧
  Sample.last_day_order ∉
    filtered_df [Sample.first_day_order; Sample.last_day_order] Sample.august.
Proof.
  assert (0 < Time.ymd_hms 2018 8 29 15 0 0 mod Time.ns_per_day) as H
    by reflexivity.
  split_and!; [reflexivity | reflexivity | exact H |].
  exact (proj2 (proj2 (end_date_bound_is_midnight
    [Sample.first_day_order; Sample.last_day_order] Sample.august
    Sample.last_day_order (Time.ymd_hms 2018 8 29 15 0 0)
    eq_refl eq_refl H))).
Defined.

(** The rows that are in every respect eligible and bought no later than
    midnight of the end date are exactly treated as the specification says. *)
Lemma filtered_df_agrees_up_to_midnight (df : list row) (p : params) (r : row) (t : Z) :
  order_purchase_timestamp r = Some t →
  t ≤ Time.to_datetime (end_date p) →
  r ∈ filtered_df df p ↔ r ∈ df ∧ spec_inclusion p r.
Proof.
  intros Ht Hle. rewrite elem_of_filtered_df.
  split; intros [? ?]; (split; [done|]);
    eauto using code_inclusion_spec_inclusion, spec_inclusion_code_inclusion.
Qed.

(** C2, as stated, fails: with the widest bounds the sidebar offers, a row
    whose category is NaN is still filtered out, so the view is not the
    whole frame. *)
Lemma full_bounds_drop_uncategorised :
  ¬ ∀ (df : list row) (p : params),
      full_bounds df = Some p → filtered_df df p = df.
Proof.
  intros H.
  specialize (H [Sample.uncategorised_order; Sample.midnight_order]
    Sample.widest eq_refl).
  vm_compute in H. discriminate H.
Qed.

(** C2, amended.  A filtered view is a sub-list of the frame (same rows,
    same order, some left out), whatever the parameters.  With the widest
    bounds the view holds every row that has a category, a payment type and
    a payment value and was bought no later than the midnight that opens
    the last purchase day.  No view holds a row that lacks the purchase
    timestamp, the category, the payment type or the payment value. *)
Theorem filtered_df_sublist_full_bounds (df : list row) (p : params) :
  filtered_df df p `sublist_of` df ∧
  (full_bounds df = Some p →
   ∀ (r : row) (t : Z),
     r ∈ df →
     order_purchase_timestamp r = Some t →
     t ≤ Time.to_datetime (end_date p) →
     is_Some (product_category_name r) →
     is_Some (payment_type r) →
     is_Some (payment_value r) →
     r ∈ filtered_df df p) ∧
  (∀ r : row,
     r ∈ filtered_df df p →
     is_Some (order_purchase_timestamp r) ∧
     is_Some (product_category_name r) ∧
     is_Some (payment_type r) ∧
     is_Some (payment_value r)).
Proof.
  split; [apply sublist_filter|]. split; cycle 1.
  { intros r [_ Hr]%elem_of_filtered_df.
    destruct Hr as ((t & -> & _) & (c & -> & _) & (m & -> & _) & (v & -> & _)).
    by repeat split. }
  intros Hb r t Hr Ht Hend [c Hc] [m Hm] [v Hv].
  unfold full_bounds in Hb.
  destruct (Pd.min_ts _) as [t0|] eqn:Ht0; [|done].
  destruct (Pd.max_ts _) as [t1|] eqn:Ht1; [|done].
  destruct (Pd.min_value _) as [lo|] eqn:Hlo; [|done].
  destruct (Pd.max_value _) as [hi|] eqn:Hhi; [|done].
  simpl in Hb. injection Hb as <-. simpl in *.
  apply elem_of_filtered_df. split; [done|]. split_and!; simpl.
  - exists t. split; [done|]. split; [|done].
    etrans; [apply to_datetime_date_of_le|].
    apply (min_ts_le _ _ _ Ht0), list_elem_of_fmap. by exists r.
  - exists c. split; [done|]. rewrite elem_of_unique, elem_of_dropna_fmap. eauto.
  - exists m. split; [done|]. rewrite elem_of_unique, elem_of_dropna_fmap. eauto.
  - exists v. split; [done|]. split.
    + apply (min_value_le _ _ _ Hlo), list_elem_of_fmap. by exists r.
    + apply (max_value_ge _ _ _ Hhi), list_elem_of_fmap. by exists r.
Qed.

Lemma filtered_df_sublist_full_bounds_witness :
  full_bounds [Sample.uncategorised_order; Sample.midnight_order]
    = Some Sample.widest ∧
  Sample.midnight_order ∈
    filtered_df [Sample.uncategorised_order; Sample.midnight_order] Sample.widest.
Proof.
  split; [reflexivity|].
  refine (proj1 (proj2 (filtered_df_sublist_full_bounds
    [Sample.uncategorised_order; Sample.midnight_order] Sample.widest)) eq_refl
    Sample.midnight_order (Time.ymd_hms 2018 8 29 0 0 0) _ eq_refl _ _ _ _).
  - apply list_elem_of_further, list_elem_of_here.
  - by vm_compute.
  - by eexists.
  - by eexists.
  - by eexists.
Defined.

(** ** The loader *)

Lemma load_row_loaded (c : csv_row) (r : row) : load_row c = Some r → loaded r.
Proof.
  unfold load_row. destruct (to_datetime_raise _); [|done].
  simpl. intros [= <-]. by repeat split.
Qed.

Lemma load_data_loaded (csv : list csv_row) (df : list row) :
  load_data csv = Some df → Forall loaded df.
Proof.
  unfold load_data. rewrite mapM_Some. intros H.
  induction H; constructor; eauto using load_row_loaded.
Qed.

(** The floor of a quotient, spelt out. *)
Lemma whole_days (delta : Z) :
  let s := delta / Time.ns_per_day in
  s * Time.ns_per_day ≤ delta < (s + 1) * Time.ns_per_day.
Proof.
  intros s. subst s. pose proof ns_per_day_pos.
  pose proof (Z.mul_div_le delta _ ns_per_day_pos).
  pose proof (Z.mul_succ_div_gt delta _ ns_per_day_pos). lia.
Qed.

Lemma load_row_shipping_time (c : csv_row) (r : row) (p : Z) :
  load_row c = Some r →
  csv_order_purchase_timestamp c = Stamp p →
  order_purchase_timestamp r = Some p ∧
  order_delivered_customer_date r
    = to_datetime_coerce (csv_order_delivered_customer_date c) ∧
  shipping_time r
    = (λ d, (d - p) / Time.ns_per_day) <$> order_delivered_customer_date r.
Proof.
  unfold load_row. intros Hr Hp. rewrite Hp in Hr. simpl in Hr.
  injection Hr as <-. simpl.
  by destruct (csv_order_delivered_customer_date c).
Qed.

(** C7, as stated, fails: a line with an empty purchase field loads (the
    field becomes NaT), and its shipping time is absent although its
    delivery date is present and well formed. *)
Lemma empty_purchase_no_shipping_time :
  load_data [Sample.csv_undated] = Some [Sample.undated] ∧
  ¬ (shipping_time Sample.undated = None ↔
     csv_order_delivered_customer_date Sample.csv_undated = Empty ∨
     csv_order_delivered_customer_date Sample.csv_undated = Unparsable).
Proof.
  split; [reflexivity|].
  intros [H _]. by destruct (H eq_refl).
Qed.

(** C7, amended.  For every line of a file that loads: if the purchase
    field of the line is empty, the shipping time of the loaded row is
    absent; if it holds a timestamp [p], the shipping time is absent
    exactly when the delivery field is empty or does
    not parse (that is, when the delivery date of the row is NaT); and when
    the delivery field holds a timestamp [d], the shipping time is the
    number [s] of whole days in [d - p], rounded down:
    [s] days [≤ d - p <] [s + 1] days. *)
Theorem shipping_time_of_loaded (csv : list csv_row) (df : list row) :
  load_data csv = Some df →
  Forall2 (λ c r,
    (csv_order_purchase_timestamp c = Empty → shipping_time r = None) ∧
    ∀ p : Z,
    csv_order_purchase_timestamp c = Stamp p →
    (shipping_time r = None ↔
       csv_order_delivered_customer_date c = Empty ∨
       csv_order_delivered_customer_date c = Unparsable) ∧
    (shipping_time r = None ↔ order_delivered_customer_date r = None) ∧
    (∀ d : Z, csv_order_delivered_customer_date c = Stamp d →
       ∃ s : Z, shipping_time r = Some s ∧
                s = (d - p) / Time.ns_per_day ∧
                s * Time.ns_per_day ≤ d - p < (s + 1) * Time.ns_per_day))
    csv df.
Proof.
  unfold load_data. rewrite mapM_Some. intros Hload.
  eapply Forall2_impl; [exact Hload|]. clear. intros c r Hr. split.
  { intros He. unfold load_row in Hr. rewrite He in Hr. simpl in Hr.
    injection Hr as <-. simpl.
    by destruct (to_datetime_coerce (csv_order_delivered_customer_date c)). }
  intros p Hp.
  destruct (load_row_shipping_time c r p Hr Hp) as (_ & Hd & Hs).
  rewrite Hs, Hd. clear Hs Hd.
  destruct (csv_order_delivered_customer_date c) as [| |d]; simpl.
  - naive_solver.
  - naive_solver.
  - split_and!; [naive_solver | naive_solver |].
    intros ? [= <-]. eexists. split_and!; [done | done | apply whole_days ..].
Qed.

Lemma shipping_time_of_loaded_witness :
  load_data [Sample.csv_delivered] = Some [Sample.delivered] ∧
  ∃ s : Z, shipping_time Sample.delivered = Some s ∧ s = 3.
Proof.
  split; [reflexivity|].
  pose proof (shipping_time_of_loaded
    [Sample.csv_delivered] [Sample.delivered] eq_refl) as H.
  apply Forall2_cons_1 in H as [[_ H] _].
  destruct (H _ eq_refl) as (_ & _ & Hd).
  destruct (Hd _ eq_refl) as (s & Hs & Heq & _).
  exists s. split; [exact Hs|]. rewrite Heq. reflexivity.
Defined.

(** The examples of the specification: three days, hour 10, March 2018. *)
Example load_row_delivered :
  ∃ r, load_row Sample.csv_delivered = Some r ∧
       shipping_time r = Some 3 ∧ order_hour r = Some 10 ∧
       year_month r = Some (Time.ym 2018 3).
Proof. eexists. by_evaluation. Qed.

(** An unparsable purchase timestamp fails the load. *)
Example load_data_garbled :
  load_data [Sample.csv_delivered; Sample.csv_garbled] = None.
Proof. reflexivity. Qed.

(** Delivery before the purchase gives a negative whole number of days:
    one hour early is day -1. *)
Example days_round_down :
  days (timedelta (Some (Time.ymd_hms 2018 3 5 9 0 0))
                  (Some (Time.ymd_hms 2018 3 5 10 0 0))) = Some (-1).
Proof. reflexivity. Qed.

(** ** The summary metrics *)

Lemma dropna_fmap_filter_is_Some {R A} (f : R → option A) (df : list R) :
  Pd.dropna (f <$> filter (λ r, is_Some (f r)) df) = Pd.dropna (f <$> df).
Proof.
  unfold Pd.dropna. induction df as [|r df IH]; [done|].
  rewrite filter_cons. destruct (decide (is_Some (f r))) as [Hs|Hn]; simpl.
  - destruct Hs as [x Hx]. rewrite Hx. simpl. by f_equal.
  - destruct (f r) as [x|] eqn:Hx; [by destruct Hn|]. done.
Qed.

(** C9.  [total_customers] is the number of distinct customer ids that
    occur in the view: there is a duplicate-free list of exactly the ids
    some row carries, and the metric is its length.  A row without
    customer id adds nothing: the metric of the view is the metric of the
    view with those rows removed. *)
Theorem total_customers_counts_present_ids (view : list row) :
  (∃ ids : list string,
     NoDup ids ∧
     (∀ c, c ∈ ids ↔ ∃ r, r ∈ view ∧ customer_id r = Some c) ∧
     total_customers view = length ids) ∧
  total_customers view
    = total_customers (filter (λ r, is_Some (customer_id r)) view).
Proof.
  split.
  - exists (Pd.unique (Pd.dropna (customer_id <$> view))). split_and!.
    + apply NoDup_unique.
    + intros c. by rewrite elem_of_unique, elem_of_dropna_fmap.
    + done.
  - unfold total_customers, Pd.nunique.
    by rewrite dropna_fmap_filter_is_Some.
Qed.

(** The example of the specification: values 100, 200, 300 of customers
    A, A, B.  A fourth row without customer id raises the order count
    only. *)
Example summary_example :
  let order v c :=
    Row (Some 0) None (Some "toys"%string) (Some "boleto"%string)
        (Some v) c None (Some 0) (Some 0) in
  let view := [order 100%Q (Some "A"%string); order 200%Q (Some "A"%string);
               order 300%Q (Some "B"%string)] in
  total_orders view = 3%nat ∧ total_customers view = 2%nat ∧
  (total_revenue view == 600)%Q ∧
  total_orders (view ++ [order 0%Q None]) = 4%nat ∧
  total_customers (view ++ [order 0%Q None]) = 2%nat.
Proof. by_evaluation. Qed.

(** ** Sorting *)

Section sorting.
Context `{Sorter}.

Lemma sort_by_nil {A} (R : relation A) `{!RelDecision R} : sort_by R [] = [].
Proof. apply Permutation_nil_r, sort_by_perm. Qed.

Lemma elem_of_sort_by {A} (R : relation A) `{!RelDecision R} (l : list A) (x : A) :
  x ∈ sort_by R l ↔ x ∈ l.
Proof. by rewrite sort_by_perm. Qed.

Lemma StronglySorted_reverse {A} (R : relation A) (l : list A) :
  StronglySorted R l → StronglySorted (flip R) (reverse l).
Proof.
  induction 1 as [|x l Hl IH Hx]; [apply SSorted_nil|].
  rewrite reverse_cons. apply StronglySorted_app. split_and!.
  - intros y z Hy ->%list_elem_of_singleton.
    rewrite elem_of_reverse in Hy. rewrite Forall_forall in Hx.
    by apply Hx.
  - done.
  - repeat constructor.
Qed.

Lemma StronglySorted_weaken {A} (R1 R2 : relation A) (l : list A) :
  (∀ x y, R1 x y → R2 x y) → StronglySorted R1 l → StronglySorted R2 l.
Proof.
  intros HR. induction 1 as [|x l Hl IH Hx]; constructor; [done|].
  eapply Forall_impl; eauto.
Qed.

Lemma StronglySorted_take {A} (R : relation A) (n : nat) (l : list A) :
  StronglySorted R l → StronglySorted R (take n l).
Proof.
  intros Hl. rewrite <- (take_drop n l) in Hl.
  by apply StronglySorted_app_1_l in Hl.
Qed.

(** What [head] leaves out ranks no better than what it keeps. *)
Lemma StronglySorted_take_rest {A} (R : relation A) (n : nat) (l : list A) (x y : A) :
  StronglySorted R l → x ∈ take n l → y ∈ l → y ∉ take n l →
  R x y ∧ length (take n l) = n.
Proof.
  intros Hl Hx Hy Hny.
  rewrite <- (take_drop n l) in Hl, Hy.
  apply elem_of_app in Hy as [Hy|Hy]; [done|]. split.
  - eapply StronglySorted_app_1_elem_of; eauto.
  - rewrite length_take. destruct (decide (n ≤ length l)%nat); [lia|].
    rewrite drop_ge in Hy by lia. by apply elem_of_nil in Hy.
Qed.

Global Instance count_le_total {K} : Total (@Pd.count_le K).
Proof. intros a b. unfold Pd.count_le. lia. Qed.

Global Instance count_le_trans {K} : Transitive (@Pd.count_le K).
Proof. intros a b c. unfold Pd.count_le. lia. Qed.

Global Instance value_le_total {K} : Total (@Pd.value_le K).
Proof.
  intros a b. unfold Pd.value_le. rewrite !Qle_bool_Is_true.
  destruct (Qlt_le_dec a.2 b.2); [left; by apply Qlt_le_weak | by right].
Qed.

Global Instance value_le_trans {K} : Transitive (@Pd.value_le K).
Proof.
  intros a b c. unfold Pd.value_le. rewrite !Qle_bool_Is_true. apply Qle_trans.
Qed.

Lemma sort_counts_desc_perm {K} (s : list (K * nat)) :
  Pd.sort_counts_desc s ≡ₚ s.
Proof.
  unfold Pd.sort_counts_desc.
  by rewrite reverse_Permutation, sort_by_perm, reverse_Permutation.
Qed.

Lemma sort_counts_desc_sorted {K} (s : list (K * nat)) :
  StronglySorted (λ a b, (b.2 ≤ a.2)%nat) (Pd.sort_counts_desc s).
Proof.
  unfold Pd.sort_counts_desc.
  apply (StronglySorted_reverse Pd.count_le), sort_by_sorted; apply _.
Qed.

Lemma sort_values_asc_perm {K} (s : list (K * Q)) : Pd.sort_values_asc s ≡ₚ s.
Proof. apply sort_by_perm. Qed.

Lemma sort_values_asc_sorted {K} (s : list (K * Q)) :
  StronglySorted (λ a b, (a.2 <= b.2)%Q) (Pd.sort_values_asc s).
Proof.
  unfold Pd.sort_values_asc.
  eapply StronglySorted_weaken; [|apply sort_by_sorted; apply _].
  intros a b. unfold Pd.value_le. by rewrite Qle_bool_Is_true.
Qed.

End sorting.

(** ** Counting per category *)

Lemma count_dropna_fmap {R} `{EqDecision A} (f : R → option A) (df : list R) (x : A) :
  Pd.count x (Pd.dropna (f <$> df)) = length (filter (λ r, f r = Some x) df).
Proof.
  unfold Pd.count, Pd.dropna. induction df as [|r df IH]; [done|].
  rewrite fmap_cons, (filter_cons (λ r, f r = Some x)). cbn [omap list_omap].
  destruct (f r) as [y|]; cbn [id].
  - rewrite filter_cons.
    destruct (decide (x = y)) as [->|Hne].
    + rewrite decide_True by done. cbn [length]. by rewrite IH.
    + rewrite decide_False by congruence. done.
  - rewrite decide_False by done. done.
Qed.

Lemma count_table_fst `{EqDecision A} (col : list (option A)) :
  (Pd.count_table col).*1 = Pd.unique (Pd.dropna col).
Proof.
  unfold Pd.count_table. rewrite <- list_fmap_compose.
  apply list_fmap_id.
Qed.

Lemma elem_of_count_table `{EqDecision A} (col : list (option A)) (x : A) (n : nat) :
  (x, n) ∈ Pd.count_table col ↔
  x ∈ Pd.dropna col ∧ n = Pd.count x (Pd.dropna col).
Proof.
  unfold Pd.count_table. rewrite list_elem_of_fmap.
  setoid_rewrite elem_of_unique. naive_solver.
Qed.

Lemma filter_key_not_nil {R} `{EqDecision A} (f : R → option A) (df : list R) (x : A) :
  filter (λ r, f r = Some x) df ≠ [] ↔ ∃ r, r ∈ df ∧ f r = Some x.
Proof.
  split.
  - intros Hne. destruct (filter _ df) as [|r l] eqn:E; [done|].
    assert (r ∈ filter (λ r, f r = Some x) df) as Hr by (rewrite E; left).
    apply list_elem_of_filter in Hr. naive_solver.
  - intros (r & Hr & Hx). apply (elem_of_not_nil r).
    by apply list_elem_of_filter.
Qed.

(** Keys stay distinct through a permutation followed by [head]. *)
Lemma NoDup_fst_take_perm {K V} (n : nat) (l s : list (K * V)) :
  l ≡ₚ s → NoDup s.*1 → NoDup (take n l).*1.
Proof.
  intros Hp Hs. rewrite fmap_take.
  eapply sublist_NoDup; [|apply sublist_take]. by rewrite Hp.
Qed.

(** C3.  [rows_of c] are the rows of the view whose category is [c]; rows
    without category belong to none of these groups.  The result of tab 1
    has at most ten lines, no category twice; each line is a category that
    occurs in the view with the number of its rows; the counts never
    increase down the table; and a category of the view that is missing
    from the table was cut off by [head(10)]: the table is then full and
    none of its lines has a smaller count.  This holds for every view, and
    so for every filtered one, and for every sorting algorithm. *)
Theorem top_categories_spec `{Sorter} (view : list row) :
  let rows_of c := filter (λ r, product_category_name r = Some c) view in
  let top := top_categories view in
  (length top ≤ 10)%nat ∧
  NoDup top.*1 ∧
  (∀ c n, (c, n) ∈ top → n = length (rows_of c) ∧ (0 < n)%nat) ∧
  StronglySorted (λ a b, (b.2 ≤ a.2)%nat) top ∧
  (∀ c, rows_of c ≠ [] → c ∉ top.*1 →
        length top = 10%nat ∧ ∀ a, a ∈ top → (length (rows_of c) ≤ a.2)%nat).
Proof.
  intros rows_of top. subst top. unfold top_categories, Pd.head, Pd.value_counts.
  set (col := product_category_name <$> view).
  set (L := Pd.sort_counts_desc (Pd.count_table col)).
  assert (L ≡ₚ Pd.count_table col) as HL by apply sort_counts_desc_perm.
  assert (∀ c n, (c, n) ∈ L ↔
            rows_of c ≠ [] ∧ n = length (rows_of c)) as Hrow.
  { intros c n. rewrite HL, elem_of_count_table. subst col rows_of.
    by rewrite count_dropna_fmap, elem_of_dropna_fmap, filter_key_not_nil. }
  split_and!.
  - rewrite length_take. lia.
  - apply (NoDup_fst_take_perm _ _ _ HL).
    rewrite count_table_fst. apply NoDup_unique.
  - intros c n Hcn%subseteq_take. apply Hrow in Hcn as [Hne ->].
    split; [done|]. destruct (rows_of c); [done | simpl; lia].
  - apply StronglySorted_take, sort_counts_desc_sorted.
  - intros c Hne Hc.
    assert ((c, length (rows_of c)) ∈ L) as Hin by by apply Hrow.
    assert ((c, length (rows_of c)) ∉ take 10 L) as Hout.
    { intros Hin'. apply Hc. apply list_elem_of_fmap.
      by exists (c, length (rows_of c)). }
    split.
    + destruct (decide (10 ≤ length L)%nat) as [Hlen|Hlen].
      * rewrite length_take. lia.
      * rewrite take_ge in Hout by lia. done.
    + intros a Ha.
      by destruct (StronglySorted_take_rest _ 10 L a _
                     (sort_counts_desc_sorted _) Ha Hin Hout).
Qed.

(** ** Grouping *)

Section groupby.
Context {R : Type} `{EqDecision K} (le : relation K) `{!RelDecision le}.
Context (key : R → option K).

Lemma groupby_fst (df : list R) :
  (Pd.groupby le key df).*1
    = merge_sort le (Pd.unique (Pd.dropna (key <$> df))).
Proof.
  unfold Pd.groupby. rewrite <- list_fmap_compose. apply list_fmap_id.
Qed.

Lemma elem_of_groupby (df : list R) (k : K) (g : list R) :
  (k, g) ∈ Pd.groupby le key df ↔
  (∃ r, r ∈ df ∧ key r = Some k) ∧ g = filter (λ r, key r = Some k) df.
Proof.
  unfold Pd.groupby. rewrite list_elem_of_fmap.
  setoid_rewrite merge_sort_Permutation.
  setoid_rewrite elem_of_unique.
  setoid_rewrite elem_of_dropna_fmap. naive_solver.
Qed.

Lemma elem_of_groupby_fst (df : list R) (k : K) :
  k ∈ (Pd.groupby le key df).*1 ↔ ∃ r, r ∈ df ∧ key r = Some k.
Proof.
  by rewrite groupby_fst, merge_sort_Permutation, elem_of_unique,
    elem_of_dropna_fmap.
Qed.

Lemma NoDup_groupby_fst (df : list R) : NoDup (Pd.groupby le key df).*1.
Proof.
  rewrite groupby_fst, merge_sort_Permutation. apply NoDup_unique.
Qed.

Lemma groupby_sorted `{!Total le, !Transitive le} (df : list R) :
  StronglySorted le (Pd.groupby le key df).*1.
Proof. rewrite groupby_fst. by apply StronglySorted_merge_sort. Qed.

(** The keys are distinct, so any sorter arranges them the same way: the
    choice of merge sort in [groupby] is no restriction. *)
Lemma groupby_any_sorter `{Sorter} `{!PartialOrder le, !Total le} (df : list R) :
  sort_by le (Pd.unique (Pd.dropna (key <$> df))) = (Pd.groupby le key df).*1.
Proof.
  rewrite groupby_fst. apply (StronglySorted_unique le).
  - apply sort_by_sorted; apply _.
  - apply StronglySorted_merge_sort; apply _.
  - by rewrite sort_by_perm, merge_sort_Permutation.
Qed.

End groupby.

Lemma StronglySorted_NoDup_strict {A} (R : relation A) (l : list A) :
  StronglySorted R l → NoDup l → StronglySorted (λ x y, R x y ∧ x ≠ y) l.
Proof.
  induction 1 as [|x l Hl IH Hx]; intros Hnd; [constructor|].
  apply NoDup_cons in Hnd as [Hx' Hnd]. constructor; [by apply IH|].
  rewrite Forall_forall in *. intros y Hy. split; [by apply Hx|].
  intros ->. by apply Hx'.
Qed.

(** ** Mean shipping time per category *)

Lemma mean_Some (col : list (option Z)) (m : Q) :
  Pd.mean col = Some m ↔
  Pd.dropna col ≠ [] ∧
  m = Qmake (foldr Z.add 0 (Pd.dropna col)) (Pos.of_nat (length (Pd.dropna col))).
Proof.
  unfold Pd.mean. destruct (Pd.dropna col); naive_solver.
Qed.

Lemma elem_of_dropna_values {K A} (s : list (K * option A)) (k : K) (v : A) :
  (k, v) ∈ Pd.dropna_values s ↔ (k, Some v) ∈ s.
Proof.
  unfold Pd.dropna_values. rewrite list_elem_of_omap. split.
  - intros ([k' [v'|]] & Hin & Heq); simplify_eq/=. done.
  - intros Hin. by exists (k, Some v).
Qed.

Lemma dropna_values_fst_sublist {K A} (s : list (K * option A)) :
  (Pd.dropna_values s).*1 `sublist_of` s.*1.
Proof.
  unfold Pd.dropna_values. induction s as [|[k [v|]] s IH]; simpl.
  - done.
  - by apply sublist_skip.
  - by apply sublist_cons.
Qed.

Lemma mean_shipping_time_fst (view : list row) :
  (mean_shipping_time view).*1
    = (Pd.groupby String.le product_category_name view).*1.
Proof.
  unfold mean_shipping_time. by rewrite <- list_fmap_compose.
Qed.

Lemma elem_of_mean_shipping_time (view : list row) (c : string) (m : option Q) :
  (c, m) ∈ mean_shipping_time view ↔
  (∃ r, r ∈ view ∧ product_category_name r = Some c) ∧
  m = Pd.mean (shipping_time <$>
        filter (λ r, product_category_name r = Some c) view).
Proof.
  unfold mean_shipping_time. rewrite list_elem_of_fmap. split.
  - intros ([k g] & Heq & Hin). apply elem_of_groupby in Hin as [Hex ->].
    by simplify_eq/=.
  - intros [Hex ->]. eexists (c, _). split; [done|].
    by apply elem_of_groupby.
Qed.

(** C5.  [times c] are the shipping times, NaN left out, of the rows of
    the view whose category is [c].  The result of tab 4 has at most ten
    lines, no category twice; each line is a category with at least one
    shipping time, together with the mean of [times c]; the means never
    decrease down the table; a category all of whose rows lack a shipping
    time is not in the table; and a category with a mean that is missing
    from the table was cut off by [head(10)]: the table is then full and
    none of its lines has a greater mean.  This holds for every view, and so
    for every filtered one, and for every sorting algorithm. *)
Theorem avg_shipping_time_spec `{Sorter} (view : list row) :
  let times c :=
    Pd.dropna (shipping_time <$>
      filter (λ r, product_category_name r = Some c) view) in
  let mean_of c := Qmake (foldr Z.add 0 (times c)) (Pos.of_nat (length (times c))) in
  let avg := avg_shipping_time view in
  (length avg ≤ 10)%nat ∧
  NoDup avg.*1 ∧
  (∀ c m, (c, m) ∈ avg → times c ≠ [] ∧ m = mean_of c) ∧
  StronglySorted (λ a b, (a.2 <= b.2)%Q) avg ∧
  (∀ c, (∀ r, r ∈ view → product_category_name r = Some c →
              shipping_time r = None) → c ∉ avg.*1) ∧
  (∀ c, times c ≠ [] → c ∉ avg.*1 →
        length avg = 10%nat ∧ ∀ a, a ∈ avg → (a.2 <= mean_of c)%Q).
Proof.
  intros times mean_of avg. subst avg. unfold avg_shipping_time, Pd.head.
  set (S0 := Pd.dropna_values (mean_shipping_time view)).
  set (L := Pd.sort_values_asc S0).
  assert (L ≡ₚ S0) as HL by apply sort_values_asc_perm.
  assert (StronglySorted (λ a b, (a.2 <= b.2)%Q) L) as Hsorted
    by apply sort_values_asc_sorted.
  assert (∀ c m, (c, m) ∈ L ↔ times c ≠ [] ∧ m = mean_of c) as Hrow.
  { intros c m. rewrite HL. subst S0.
    rewrite elem_of_dropna_values, elem_of_mean_shipping_time. split.
    - intros [_ Hm]. symmetry in Hm. by apply mean_Some in Hm.
    - intros [Hne ->]. split.
      + destruct (times c) as [|x l] eqn:E; [done|].
        assert (x ∈ times c) as Hx by (rewrite E; left).
        apply elem_of_dropna_fmap in Hx as (r & Hr & _).
        apply list_elem_of_filter in Hr. naive_solver.
      + symmetry. by apply mean_Some. }
  assert (∀ c m, (c, m) ∈ take 10 L → times c ≠ [] ∧ m = mean_of c) as Htop.
  { intros c m Hcm%subseteq_take. by apply Hrow. }
  split_and!.
  - rewrite length_take. lia.
  - apply (NoDup_fst_take_perm _ _ _ HL). subst S0.
    eapply sublist_NoDup; [|apply dropna_values_fst_sublist].
    rewrite mean_shipping_time_fst. apply NoDup_groupby_fst.
  - done.
  - by apply StronglySorted_take.
  - intros c Hnone ([c' m] & -> & Hin)%list_elem_of_fmap. simpl in *.
    destruct (Htop _ _ Hin) as [Hne _].
    destruct (times c') as [|x l] eqn:E; [done|].
    assert (x ∈ times c') as Hx by (rewrite E; left).
    apply elem_of_dropna_fmap in Hx as (r & Hr & Hs).
    apply list_elem_of_filter in Hr as [Hc Hr].
    rewrite (Hnone r Hr Hc) in Hs. done.
  - intros c Hne Hc.
    assert ((c, mean_of c) ∈ L) as Hin by by apply Hrow.
    assert ((c, mean_of c) ∉ take 10 L) as Hout.
    { intros Hin'. apply Hc. apply list_elem_of_fmap. by exists (c, mean_of c). }
    split.
    + destruct (decide (10 ≤ length L)%nat) as [Hlen|Hlen].
      * rewrite length_take. lia.
      * rewrite take_ge in Hout by lia. done.
    + intros a Ha.
      by destruct (StronglySorted_take_rest _ 10 L a _ Hsorted Ha Hin Hout).
Qed.

(** ** Monthly revenue *)

Lemma year_eq_spec (y : Z) (r : row) :
  year_eq y r ↔ ∃ t, order_purchase_timestamp r = Some t ∧ Time.year_of t = y.
Proof.
  unfold year_eq. destruct (order_purchase_timestamp r) as [t|].
  - rewrite Is_true_true, Z.eqb_eq. naive_solver.
  - naive_solver.
Qed.

Lemma loaded_year_month (r : row) (k : Z) :
  loaded r → year_eq 2018 r → year_month r = Some k →
  Time.period_year k = 2018 ∧ 1 ≤ Time.period_month k ≤ 12.
Proof.
  intros (_ & _ & Hym) (t & Ht & Hy)%year_eq_spec Hk.
  rewrite Ht in Hym. simpl in Hym. simplify_eq.
  rewrite period_year_to_period_M, period_month_to_period_M.
  split; [done | apply month_of_range].
Qed.

Lemma monthly_revenue_fst `{FloatSum} (view : list row) :
  (monthly_revenue view).*1
    = (Pd.groupby Z.le year_month
         (filter (λ r, Is_true (year_eq 2018 r)) view)).*1.
Proof. unfold monthly_revenue. by rewrite <- list_fmap_compose. Qed.

Lemma dropna_fmap_omap {R A} (f : R → option A) (l : list R) :
  Pd.dropna (f <$> l) = omap f l.
Proof.
  unfold Pd.dropna. induction l as [|r l IH]; [done|].
  rewrite fmap_cons. cbn [omap list_omap]. rewrite IH.
  by destruct (f r).
Qed.

Lemma elem_of_monthly_revenue `{FloatSum} (view : list row) (k : Z) (s : Q) :
  (k, s) ∈ monthly_revenue view ↔
  (∃ r, r ∈ view ∧ year_eq 2018 r ∧ year_month r = Some k) ∧
  s = fsum (omap payment_value
        (filter (λ r, year_month r = Some k ∧ year_eq 2018 r) view)).
Proof.
  unfold monthly_revenue, Pd.group_sum. rewrite list_elem_of_fmap.
  setoid_rewrite <- list_filter_filter. split.
  - intros ([k' g] & Heq & Hin). apply elem_of_groupby in Hin as [Hex ->].
    simplify_eq/=. rewrite dropna_fmap_omap. split; [|done].
    destruct Hex as (r & Hr%list_elem_of_filter & Hk). naive_solver.
  - intros [(r & Hr & Hy & Hk) ->]. eexists (k, _). split.
    + simpl. by rewrite dropna_fmap_omap.
    + apply elem_of_groupby. split; [|done].
      exists r. by rewrite list_elem_of_filter.
Qed.



(** The date filter lets the row of December 2017 through; tab 2 leaves it
    out, adds the two rows of January, and has no line for February. *)
Example monthly_revenue_two_years :
  let view := filtered_df Sample.two_years Sample.toys_by_card in
  total_orders view = 4%nat ∧
  monthly_revenue view = [(Time.ym 2018 1, 150%Q); (Time.ym 2018 3, 100%Q)].
Proof. by_evaluation. Qed.

(** ** The empty view *)

(** C6.  When the filter keeps no row, the three metrics are 0 (the revenue
    is the number 0, not NaN) and each tab is handed an empty table or
    column.  Every operation involved is a total function, so none of them
    can fail on the empty view. *)
Theorem empty_view_results `{Sorter} `{FloatSum} (df : list row) (p : params) :
  filtered_df df p = [] →
  let view := filtered_df df p in
  total_orders view = 0%nat ∧
  total_customers view = 0%nat ∧
  total_revenue view = 0%Q ∧
  top_categories view = [] ∧
  monthly_revenue view = [] ∧
  order_hours view = [] ∧
  avg_shipping_time view = [].
Proof.
  intros Hempty view. subst view. rewrite Hempty. split_and!; try done.
  - unfold top_categories, Pd.value_counts, Pd.sort_counts_desc.
    change (Pd.count_table (product_category_name <$> []))
      with (@nil (string * nat)).
    change (reverse (@nil (string * nat))) with (@nil (string * nat)).
    by rewrite sort_by_nil.
  - unfold avg_shipping_time, Pd.sort_values_asc.
    change (Pd.dropna_values (mean_shipping_time []))
      with (@nil (string * Q)).
    by rewrite sort_by_nil.
Qed.

Lemma empty_view_results_witness :
  filtered_df [Sample.first_day_order; Sample.uncategorised_order]
    Sample.nothing_selected = [] ∧
  total_revenue (filtered_df [Sample.first_day_order; Sample.uncategorised_order]
    Sample.nothing_selected) = 0%Q.
Proof.
  split; [reflexivity|].
  exact (proj1 (proj2 (proj2 (empty_view_results
    [Sample.first_day_order; Sample.uncategorised_order]
    Sample.nothing_selected eq_refl)))).
Defined.

(** ** The aggregations on sample frames *)

(** Rows without category are counted nowhere; undelivered rows count for
    tab 1 and not for tab 4, which has no line for the toys. *)
Example aggregations_shop :
  top_categories Sample.shop = [("bed", 3%nat); ("art", 2%nat); ("toys", 1%nat)] ∧
  avg_shipping_time Sample.shop = [("art", (5 # 2)%Q); ("bed", (11 # 2)%Q)] ∧
  total_orders Sample.shop = 7%nat.
Proof. by_evaluation. Qed.

(** Twelve categories: both tables stop at ten lines. *)
Example aggregations_bazaar :
  length (top_categories Sample.bazaar) = 10%nat ∧
  head (top_categories Sample.bazaar) = Some ("a", 3%nat) ∧
  avg_shipping_time Sample.bazaar =
    [("l", 0%Q); ("k", 1%Q); ("j", 2%Q); ("i", 3%Q); ("h", 4%Q);
     ("g", 5%Q); ("f", 6%Q); ("e", 7%Q); ("d", 8%Q); ("c", 9%Q)].
Proof. by_evaluation. Qed.

(** ** Ties *)

(** The contract of the sort leaves the order of tied lines open: two
    sorters that both meet it disagree on a frame with two categories
    bought once each. *)
Lemma tie_order_depends_on_sorter :
  let view := [Sample.order (Some "toys"%string) None;
               Sample.order (Some "art"%string) None] in
  top_categories (H := merge_sorter) view = [("toys", 1%nat); ("art", 1%nat)] ∧
  top_categories (H := reversing_sorter) view = [("art", 1%nat); ("toys", 1%nat)].
Proof. by_evaluation. Qed.

Lemma NoDup_snd_inj {K V} (l : list (K * V)) (x y : K * V) :
  NoDup l.*2 → x ∈ l → y ∈ l → x.2 = y.2 → x = y.
Proof.
  induction l as [|z l IH]; simpl; [by intros _ ?%elem_of_nil|].
  rewrite NoDup_cons, !elem_of_cons. intros [Hz Hl] [->|Hx] [->|Hy] Heq.
  - done.
  - destruct Hz. rewrite Heq. by apply list_elem_of_fmap_2.
  - destruct Hz. rewrite <- Heq. by apply list_elem_of_fmap_2.
  - by apply IH.
Qed.

(** Without ties the sorter does not matter: when no two categories have
    the same count, every sorter yields the same table for tab 1. *)
Lemma top_categories_without_ties (S1 S2 : Sorter) (view : list row) :
  NoDup (Pd.count_table (product_category_name <$> view)).*2 →
  top_categories (H := S1) view = top_categories (H := S2) view.
Proof.
  intros Hnd. unfold top_categories, Pd.value_counts. f_equal.
  set (s := Pd.count_table _) in *.
  apply (StronglySorted_unique_strong (λ a b, (b.2 ≤ a.2)%nat)).
  - intros x y Hx Hy Hxy Hyx.
    rewrite (sort_counts_desc_perm (H := S1)) in Hx.
    rewrite (sort_counts_desc_perm (H := S2)) in Hy.
    apply (NoDup_snd_inj s); [done..|lia].
  - apply sort_counts_desc_sorted.
  - apply sort_counts_desc_sorted.
  - by rewrite !sort_counts_desc_perm.
Qed.

(** * Further properties of the script *)

(** ** The loader, line by line *)

(** A load that succeeds returns one row per line, in the order of the
    file, with the four plain columns untouched; an empty or unparsable
    delivery field becomes NaT. *)
Theorem load_data_keeps_rows (csv : list csv_row) (df : list row) :
  load_data csv = Some df →
  length df = length csv ∧
  product_category_name <$> df = csv_product_category_name <$> csv ∧
  payment_type <$> df = csv_payment_type <$> csv ∧
  payment_value <$> df = csv_payment_value <$> csv ∧
  customer_id <$> df = csv_customer_id <$> csv ∧
  order_delivered_customer_date <$> df
    = (λ c, to_datetime_coerce (csv_order_delivered_customer_date c)) <$> csv.
Proof.
  unfold load_data. rewrite mapM_Some. intros H.
  induction H as [|c r csv df Hr _ IH]; [done|].
  destruct IH as (IH0 & IH1 & IH2 & IH3 & IH4 & IH5).
  unfold load_row in Hr. destruct (to_datetime_raise _); [|done].
  simpl in Hr. injection Hr as <-.
  rewrite !fmap_cons, IH1, IH2, IH3, IH4, IH5. simpl. by rewrite IH0.
Qed.

Lemma load_data_keeps_rows_witness :
  load_data Sample.csv_two_years = Some Sample.two_years ∧
  length Sample.two_years = 5%nat.
Proof.
  split; [reflexivity|].
  exact (proj1 (load_data_keeps_rows Sample.csv_two_years Sample.two_years
    eq_refl)).
Defined.

(** The hour column of a loaded frame: absent exactly on the rows without
    purchase timestamp, and otherwise an hour of the day, 0 to 23. *)
Theorem order_hour_of_loaded (csv : list csv_row) (df : list row) :
  load_data csv = Some df →
  ∀ r, r ∈ df →
    (order_hour r = None ↔ order_purchase_timestamp r = None) ∧
    (∀ h, order_hour r = Some h → 0 ≤ h ≤ 23).
Proof.
  intros Hload r Hr.
  apply load_data_loaded in Hload. rewrite Forall_forall in Hload.
  destruct (Hload r Hr) as (_ & Hh & _). rewrite Hh.
  destruct (order_purchase_timestamp r) as [t|]; simpl.
  - split; [done|]. intros h [= <-]. apply hour_of_range.
  - split; [done|]. done.
Qed.

Lemma order_hour_of_loaded_witness :
  load_data Sample.csv_two_years = Some Sample.two_years ∧
  Sample.delivered ∈ Sample.two_years ∧
  ∀ h, order_hour Sample.delivered = Some h → 0 ≤ h ≤ 23.
Proof.
  assert (Sample.delivered ∈ Sample.two_years) as Hin
    by apply list_elem_of_further, list_elem_of_here.
  split; [reflexivity|]. split; [exact Hin|].
  exact (proj2 (order_hour_of_loaded Sample.csv_two_years Sample.two_years
    eq_refl Sample.delivered Hin)).
Defined.

(** The month column of a loaded frame: absent exactly on the rows without
    purchase timestamp; otherwise the period whose year and month are the
    year and the month of the purchase, the month being 1 to 12.  So the
    test [dt.year == 2018] of tab 2 and the year of the bucket agree. *)
Theorem year_month_of_loaded (csv : list csv_row) (df : list row) :
  load_data csv = Some df →
  ∀ r, r ∈ df →
    (year_month r = None ↔ order_purchase_timestamp r = None) ∧
    (∀ t k, order_purchase_timestamp r = Some t → year_month r = Some k →
       Time.period_year k = Time.year_of t ∧
       Time.period_month k = Time.month_of t ∧
       1 ≤ Time.period_month k ≤ 12 ∧
       (year_eq 2018 r ↔ Time.period_year k = 2018)).
Proof.
  intros Hload r Hr.
  apply load_data_loaded in Hload. rewrite Forall_forall in Hload.
  destruct (Hload r Hr) as (_ & _ & Hk). rewrite Hk.
  destruct (order_purchase_timestamp r) as [t|] eqn:Ht; simpl.
  - split; [done|]. intros ? k [= <-] [= <-].
    rewrite period_year_to_period_M, period_month_to_period_M.
    split_and!; try done; try apply month_of_range.
    rewrite year_eq_spec, Ht. naive_solver.
  - split; [done|]. done.
Qed.

Lemma year_month_of_loaded_witness :
  load_data Sample.csv_two_years = Some Sample.two_years ∧
  Sample.delivered ∈ Sample.two_years ∧
  Time.period_year (Time.ym 2018 3) = 2018.
Proof.
  assert (Sample.delivered ∈ Sample.two_years) as Hin
    by apply list_elem_of_further, list_elem_of_here.
  split; [reflexivity|]. split; [exact Hin|].
  destruct (proj2 (year_month_of_loaded Sample.csv_two_years Sample.two_years
    eq_refl Sample.delivered Hin) _ _ eq_refl eq_refl) as (Hy & _).
  rewrite Hy. reflexivity.
Defined.

(** Shipping times are kept whatever their sign: the shipping time of a
    loaded row is negative exactly when the delivery is dated before the
    purchase, and it is 0 when the delivery follows within 24 hours. *)
Theorem shipping_time_sign (csv : list csv_row) (df : list row) :
  load_data csv = Some df →
  ∀ r s, r ∈ df → shipping_time r = Some s →
    ∃ p d, order_purchase_timestamp r = Some p ∧
           order_delivered_customer_date r = Some d ∧
           (s < 0 ↔ d < p) ∧
           (s = 0 ↔ p ≤ d < p + Time.ns_per_day).
Proof.
  intros Hload r s Hr Hs.
  apply load_data_loaded in Hload. rewrite Forall_forall in Hload.
  destruct (Hload r Hr) as (Hship & _ & _). rewrite Hs in Hship.
  destruct (order_delivered_customer_date r) as [d|]; [|done].
  destruct (order_purchase_timestamp r) as [p|]; [|done].
  simpl in Hship. injection Hship as ->.
  exists p, d. split_and!; try done.
  - pose proof (whole_days (d - p)) as Hw. simpl in Hw.
    pose proof ns_per_day_pos. nia.
  - pose proof (whole_days (d - p)) as Hw. simpl in Hw.
    pose proof ns_per_day_pos. split; [intros Hz; rewrite Hz in Hw; lia|].
    intros Hd. nia.
Qed.

Lemma shipping_time_sign_witness :
  load_data Sample.csv_two_years = Some Sample.two_years ∧
  ∃ p d, order_purchase_timestamp Sample.delivered = Some p ∧
         order_delivered_customer_date Sample.delivered = Some d ∧
         ¬ d < p.
Proof.
  split; [reflexivity|].
  destruct (shipping_time_sign Sample.csv_two_years Sample.two_years eq_refl
    Sample.delivered 3 (list_elem_of_further _ _ _ (list_elem_of_here _ _))
    eq_refl) as (p & d & Hp & Hd & Hneg & _).
  exists p, d. split; [exact Hp|]. split; [exact Hd|].
  intros Hlt. apply Hneg in Hlt. lia.
Defined.

(** ** The filter as an operation on frames *)

Lemma filter_sublist_mono {A} (P Q : A → Prop)
    `{!∀ x, Decision (P x), !∀ x, Decision (Q x)} (l : list A) :
  (∀ x, P x → Q x) → filter P l `sublist_of` filter Q l.
Proof.
  intros HPQ. induction l as [|x l IH]; [done|].
  rewrite !filter_cons. destruct (decide (P x)) as [HP|HP].
  - rewrite decide_True by auto. by apply sublist_skip.
  - destruct (decide (Q x)); [by apply sublist_cons | done].
Qed.

Lemma to_datetime_mono (d e : Z) :
  d ≤ e → Time.to_datetime d ≤ Time.to_datetime e.
Proof.
  intros. unfold Time.to_datetime.
  apply Z.mul_le_mono_nonneg_r; [|done]. pose proof ns_per_day_pos. lia.
Qed.

Lemma narrower_code_inclusion (p q : params) (r : row) :
  narrower p q → code_inclusion p r → code_inclusion q r.
Proof.
  intros (Hs & He & Hc & Hm & Hlo & Hhi)
    ((t & Ht & Hts & Hte) & (c & Hrc & Hin) & (m & Hrm & Hinm) & (v & Hv & Hvlo & Hvhi)).
  apply to_datetime_mono in Hs, He.
  split_and!.
  - exists t. split; [done|]. lia.
  - exists c. split; [done|]. by apply Hc.
  - exists m. split; [done|]. by apply Hm.
  - exists v. split; [done|]. split; eapply Qle_trans; eauto.
Qed.

(** Narrowing the sidebar only removes rows: if [p] selects no more than
    [q] (later start, earlier end, fewer categories and payment methods,
    narrower price range), the view of [p] is a sub-list of the view of
    [q]. *)
Theorem filtered_df_narrower (df : list row) (p q : params) :
  narrower p q → filtered_df df p `sublist_of` filtered_df df q.
Proof.
  intros Hpq. apply filter_sublist_mono. intros r.
  rewrite !mask_spec. by apply narrower_code_inclusion.
Qed.

Lemma filtered_df_narrower_witness :
  narrower Sample.first_week Sample.august ∧
  filtered_df [Sample.first_day_order; Sample.midnight_order] Sample.first_week
    `sublist_of`
  filtered_df [Sample.first_day_order; Sample.midnight_order] Sample.august.
Proof.
  assert (narrower Sample.first_week Sample.august) as H.
  { unfold narrower. split_and!; try done; by vm_compute. }
  split; [exact H|].
  exact (filtered_df_narrower _ _ _ H).
Defined.

(** The mask is computed row by row.  So filtering twice with the same
    sidebar changes nothing, two sidebars can be applied in either order,
    and the view of two frames put end to end is the two views put end to
    end. *)
Theorem filtered_df_rowwise (df df' : list row) (p q : params) :
  filtered_df (filtered_df df p) p = filtered_df df p ∧
  filtered_df (filtered_df df p) q = filtered_df (filtered_df df q) p ∧
  filtered_df (df ++ df') p = filtered_df df p ++ filtered_df df' p.
Proof.
  unfold filtered_df. split_and!.
  - rewrite list_filter_filter. apply list_filter_iff. tauto.
  - rewrite !list_filter_filter. apply list_filter_iff. tauto.
  - apply filter_app.
Qed.

(** An emptied multiselect, or an end date before the start date, leaves
    no row at all, whatever the frame. *)
Theorem filtered_df_nothing_selected (df : list row) (p : params) :
  selected_category p = [] ∨ selected_payment p = [] ∨
    end_date p < start_date p →
  filtered_df df p = [].
Proof.
  intros Hp. destruct (filtered_df df p) as [|r l] eqn:E; [done|].
  assert (r ∈ filtered_df df p) as Hr by (rewrite E; left).
  apply elem_of_filtered_df in Hr
    as (_ & (t & _ & Hs & He) & (c & _ & Hc) & (m & _ & Hm) & _).
  destruct Hp as [Hp|[Hp|Hp]].
  - rewrite Hp in Hc. by apply elem_of_nil in Hc.
  - rewrite Hp in Hm. by apply elem_of_nil in Hm.
  - assert (Time.to_datetime (end_date p) < Time.to_datetime (start_date p));
      [|lia].
    unfold Time.to_datetime. apply Z.mul_lt_mono_pos_r; [reflexivity | done].
Qed.

Lemma filtered_df_nothing_selected_witness :
  end_date Sample.backwards < start_date Sample.backwards ∧
  filtered_df [Sample.first_day_order; Sample.midnight_order] Sample.backwards
    = [].
Proof.
  assert (end_date Sample.backwards < start_date Sample.backwards) as H
    by reflexivity.
  split; [exact H|].
  exact (filtered_df_nothing_selected _ _ (or_intror (or_intror H))).
Defined.

(** ** The bounds the sidebar takes from the frame *)

(** Read by calendar day, the bounds taken from the frame leave no
    complete row out: every row with a purchase timestamp, a category, a
    payment type and a payment value lies between the first and the last
    purchase day, has its category and payment type among the options and
    its payment value within the slider. *)
Theorem full_bounds_cover_every_day (df : list row) (p : params) :
  full_bounds df = Some p →
  ∀ r, r ∈ df →
    is_Some (order_purchase_timestamp r) →
    is_Some (product_category_name r) →
    is_Some (payment_type r) →
    is_Some (payment_value r) →
    spec_inclusion p r.
Proof.
  intros Hb r Hr [t Ht] [c Hc] [m Hm] [v Hv].
  unfold full_bounds in Hb.
  destruct (Pd.min_ts _) as [t0|] eqn:Ht0; [|done].
  destruct (Pd.max_ts _) as [t1|] eqn:Ht1; [|done].
  destruct (Pd.min_value _) as [lo|] eqn:Hlo; [|done].
  destruct (Pd.max_value _) as [hi|] eqn:Hhi; [|done].
  simpl in Hb. injection Hb as <-.
  assert (Some t ∈ order_purchase_timestamp <$> df) as Hint
    by (apply list_elem_of_fmap; by exists r).
  assert (Some v ∈ payment_value <$> df) as Hinv
    by (apply list_elem_of_fmap; by exists r).
  split_and!; simpl.
  - exists t. split; [done|]. simpl. split; apply date_of_mono.
    + by apply (min_ts_le _ _ _ Ht0).
    + by apply (max_ts_ge _ _ _ Ht1).
  - exists c. split; [done|]. rewrite elem_of_unique, elem_of_dropna_fmap. eauto.
  - exists m. split; [done|]. rewrite elem_of_unique, elem_of_dropna_fmap. eauto.
  - exists v. split; [done|]. split.
    + by apply (min_value_le _ _ _ Hlo).
    + by apply (max_value_ge _ _ _ Hhi).
Qed.

Lemma full_bounds_cover_every_day_witness :
  full_bounds [Sample.first_day_order; Sample.last_day_order]
    = Some Sample.august_observed ∧
  spec_inclusion Sample.august_observed Sample.last_day_order ∧
  Sample.last_day_order ∉
    filtered_df [Sample.first_day_order; Sample.last_day_order]
      Sample.august_observed.
Proof.
  split; [reflexivity|]. split.
  - refine (full_bounds_cover_every_day
      [Sample.first_day_order; Sample.last_day_order] Sample.august_observed
      eq_refl Sample.last_day_order _ _ _ _ _).
    + apply list_elem_of_further, list_elem_of_here.
    + by eexists.
    + by eexists.
    + by eexists.
    + by eexists.
  - intros Hin. apply elem_of_filtered_df in Hin as (_ & (t & Ht & _ & He) & _).
    injection Ht as <-. vm_compute in He. by apply He.
Defined.

(** The sidebar as it opens.  At most five categories are preselected, all
    different and all among the options of the multiselect (the options
    being exactly the categories that occur in the frame); every payment
    method is preselected.  The opening view is a sub-list of the view
    under the widest bounds, and the two sidebars coincide when the frame
    has no more than five categories. *)
Theorem sidebar_defaults_spec (df : list row) (p : params) :
  sidebar_defaults df = Some p →
  (length (selected_category p) ≤ 5)%nat ∧
  NoDup (selected_category p) ∧
  selected_category p ⊆ categories df ∧
  (∀ c, c ∈ categories df ↔ ∃ r, r ∈ df ∧ product_category_name r = Some c) ∧
  selected_payment p = payment_methods df ∧
  (∃ q, full_bounds df = Some q ∧ narrower p q ∧
        filtered_df df p `sublist_of` filtered_df df q) ∧
  ((length (categories df) ≤ 5)%nat → full_bounds df = Some p).
Proof.
  unfold sidebar_defaults, full_bounds. intros Hp.
  destruct (Pd.min_ts _) as [t0|]; [|done].
  destruct (Pd.max_ts _) as [t1|]; [|done].
  destruct (Pd.min_value _) as [lo|]; [|done].
  destruct (Pd.max_value _) as [hi|]; [|done].
  simpl in *. injection Hp as <-. simpl.
  split_and!.
  - rewrite length_take. lia.
  - eapply sublist_NoDup; [apply NoDup_unique | apply sublist_take].
  - apply subseteq_take.
  - intros c. unfold categories. by rewrite elem_of_unique, elem_of_dropna_fmap.
  - done.
  - eexists. split; [done|].
    assert (narrower
      {| start_date := Time.date_of t0; end_date := Time.date_of t1;
         selected_category := take 5 (categories df);
         selected_payment := payment_methods df;
         min_price := lo; max_price := hi |}
      {| start_date := Time.date_of t0; end_date := Time.date_of t1;
         selected_category :=
           Pd.unique (Pd.dropna (product_category_name <$> df));
         selected_payment := Pd.unique (Pd.dropna (payment_type <$> df));
         min_price := lo; max_price := hi |}) as Hn.
    { unfold narrower. simpl. split_and!; try done; try apply Qle_refl.
      apply subseteq_take. }
    split; [done|]. apply filter_sublist_mono. intros r.
    rewrite !mask_spec. by apply narrower_code_inclusion.
  - intros Hlen. by rewrite take_ge.
Qed.

Lemma sidebar_defaults_spec_witness :
  sidebar_defaults Sample.bazaar = Some Sample.bazaar_opening ∧
  selected_category Sample.bazaar_opening = ["a"; "b"; "c"; "d"; "e"] ∧
  NoDup (selected_category Sample.bazaar_opening).
Proof.
  split; [reflexivity|]. split; [reflexivity|].
  exact (proj1 (proj2 (sidebar_defaults_spec Sample.bazaar
    Sample.bazaar_opening eq_refl))).
Defined.

(** ** What the tabs are handed for a filtered view *)

(** Tab 3: the histogram gets one hour per row of the view, none of them
    NaN, each between 0 and 23. *)
Theorem order_hours_of_view (csv : list csv_row) (df : list row) (p : params) :
  load_data csv = Some df →
  let view := filtered_df df p in
  length (order_hours view) = total_orders view ∧
  Forall (λ h, ∃ z, h = Some z ∧ 0 ≤ z ≤ 23) (order_hours view).
Proof.
  intros Hload view. split; [apply length_fmap|].
  apply Forall_forall. intros h (r & -> & Hr)%list_elem_of_fmap.
  apply elem_of_filtered_df in Hr as [Hr ((t & Ht & _) & _)].
  apply load_data_loaded in Hload. rewrite Forall_forall in Hload.
  destruct (Hload r Hr) as (_ & -> & _). rewrite Ht. simpl.
  eexists. split; [done|]. apply hour_of_range.
Qed.

Lemma order_hours_of_view_witness :
  load_data Sample.csv_two_years = Some Sample.two_years ∧
  length (order_hours (filtered_df Sample.two_years Sample.toys_by_card))
    = 4%nat.
Proof.
  split; [reflexivity|].
  exact (proj1 (order_hours_of_view Sample.csv_two_years Sample.two_years
    Sample.toys_by_card eq_refl)).
Defined.

Section tables.
Context `{Sorter}.

Lemma elem_of_top_categories (view : list row) (c : string) (n : nat) :
  (c, n) ∈ top_categories view →
  (∃ r, r ∈ view ∧ product_category_name r = Some c) ∧
  n = length (filter (λ r, product_category_name r = Some c) view).
Proof.
  unfold top_categories, Pd.head, Pd.value_counts.
  intros Hin%subseteq_take. rewrite sort_counts_desc_perm in Hin.
  apply elem_of_count_table in Hin as [Hc ->].
  by rewrite count_dropna_fmap, <- elem_of_dropna_fmap.
Qed.

Lemma elem_of_avg_shipping_time (view : list row) (c : string) (m : Q) :
  (c, m) ∈ avg_shipping_time view →
  (∃ r, r ∈ view ∧ product_category_name r = Some c) ∧
  Pd.mean (shipping_time <$>
    filter (λ r, product_category_name r = Some c) view) = Some m.
Proof.
  unfold avg_shipping_time, Pd.head.
  intros Hin%subseteq_take. rewrite sort_values_asc_perm in Hin.
  apply elem_of_dropna_values, elem_of_mean_shipping_time in Hin as [Hc Hm].
  done.
Qed.

(** Tabs 1 and 4 show selected categories only: every category in either
    table of a filtered view is one of those chosen in the sidebar, and
    its count in tab 1 is at most its number of rows in the whole frame. *)
Theorem tables_within_selection (df : list row) (p : params) :
  (∀ c n, (c, n) ∈ top_categories (filtered_df df p) →
     c ∈ selected_category p ∧
     (n ≤ length (filter (λ r, product_category_name r = Some c) df))%nat) ∧
  (∀ c m, (c, m) ∈ avg_shipping_time (filtered_df df p) →
     c ∈ selected_category p).
Proof.
  assert (∀ c, (∃ r, r ∈ filtered_df df p ∧ product_category_name r = Some c) →
               c ∈ selected_category p) as Hsel.
  { intros c (r & Hr & Hc). apply elem_of_filtered_df in Hr
      as (_ & _ & (c' & Hc' & Hin) & _). congruence. }
  split.
  - intros c n [Hc ->]%elem_of_top_categories. split; [by apply Hsel|].
    unfold filtered_df. rewrite list_filter_filter.
    apply sublist_length, filter_sublist_mono. tauto.
  - intros c m [Hc _]%elem_of_avg_shipping_time. by apply Hsel.
Qed.

End tables.

(** ** Totals *)

Lemma length_filter_or_disjoint {A} (P Q : A → Prop)
    `{!∀ x, Decision (P x), !∀ x, Decision (Q x)} (l : list A) :
  (∀ x, P x → Q x → False) →
  length (filter (λ x, P x ∨ Q x) l)
    = (length (filter P l) + length (filter Q l))%nat.
Proof.
  intros Hd. induction l as [|x l IH]; [done|].
  rewrite !filter_cons.
  destruct (decide (P x)) as [HP|HP]; destruct (decide (Q x)) as [HQ|HQ].
  - destruct (Hd x HP HQ).
  - rewrite decide_True by auto. simpl. lia.
  - rewrite decide_True by auto. simpl. lia.
  - rewrite decide_False by tauto. done.
Qed.

Lemma sum_counts `{EqDecision A} (ks l : list A) :
  NoDup ks →
  sum_list_with (λ k, Pd.count k l) ks = length (filter (λ x, x ∈ ks) l).
Proof.
  unfold Pd.count. induction 1 as [|k ks Hk Hks IH]; simpl.
  - induction l as [|x l IHl]; [done|].
    rewrite filter_cons, decide_False by apply not_elem_of_nil. done.
  - rewrite IH, <- length_filter_or_disjoint by (intros x <- ?; done).
    f_equal. apply list_filter_iff. intros x. rewrite elem_of_cons. naive_solver.
Qed.

Lemma length_dropna_fmap {R A} (f : R → option A) (df : list R) :
  length (Pd.dropna (f <$> df)) = length (filter (λ r, is_Some (f r)) df).
Proof.
  unfold Pd.dropna. induction df as [|r df IH]; [done|].
  rewrite fmap_cons, filter_cons. cbn [omap list_omap].
  destruct (f r) as [x|]; cbn [id].
  - rewrite decide_True by done. simpl. by rewrite IH.
  - rewrite decide_False by (by intros [? ?]). done.
Qed.

Lemma sum_list_with_take_le {A} (f : A → nat) (n : nat) (l : list A) :
  (sum_list_with f (take n l) ≤ sum_list_with f l)%nat.
Proof.
  rewrite <- (take_drop n l) at 2. rewrite sum_list_with_app. lia.
Qed.

Lemma sum_list_with_fmap {A B} (f : B → nat) (g : A → B) (l : list A) :
  sum_list_with f (g <$> l) = sum_list_with (λ x, f (g x)) l.
Proof. induction l as [|x l IH]; [done|]. simpl. by f_equal. Qed.

Lemma filter_all {A} (P : A → Prop) `{!∀ x, Decision (P x)} (l : list A) :
  (∀ x, x ∈ l → P x) → filter P l = l.
Proof.
  induction l as [|x l IH]; intros HP; [done|].
  rewrite filter_cons, decide_True by (apply HP; left).
  f_equal. apply IH. intros y Hy. apply HP. by right.
Qed.

Lemma count_table_total `{EqDecision A} (col : list (option A)) :
  sum_list_with snd (Pd.count_table col) = length (Pd.dropna col).
Proof.
  unfold Pd.count_table.
  transitivity (sum_list_with (λ k, Pd.count k (Pd.dropna col))
                  (Pd.unique (Pd.dropna col))).
  - apply sum_list_with_fmap.
  - rewrite sum_counts by apply NoDup_unique. f_equal.
    apply filter_all. intros x Hx. by apply elem_of_unique.
Qed.

(** The counts of tab 1 add up to no more than the number of rows of the
    view that have a category, and to exactly that number when the view has
    at most ten categories. *)
Theorem top_categories_total `{Sorter} (view : list row) :
  let categorised := filter (λ r, is_Some (product_category_name r)) view in
  (sum_list_with snd (top_categories view) ≤ length categorised)%nat ∧
  (length categorised ≤ total_orders view)%nat ∧
  ((length (categories view) ≤ 10)%nat →
   sum_list_with snd (top_categories view) = length categorised).
Proof.
  intros categorised. subst categorised.
  unfold top_categories, Pd.head, Pd.value_counts.
  set (col := product_category_name <$> view).
  assert (sum_list_with snd (Pd.sort_counts_desc (Pd.count_table col))
          = length (filter (λ r, is_Some (product_category_name r)) view)) as Hall.
  { rewrite sort_counts_desc_perm, count_table_total. apply length_dropna_fmap. }
  split_and!.
  - rewrite <- Hall. apply sum_list_with_take_le.
  - apply length_filter.
  - intros Hlen. rewrite take_ge; [done|].
    rewrite sort_counts_desc_perm. unfold Pd.count_table.
    by rewrite length_fmap.
Qed.

Lemma strictly_sorted_length (a b : Z) (l : list Z) :
  StronglySorted Z.lt l → Forall (λ k, a ≤ k < b) l →
  Z.of_nat (length l) ≤ Z.max 0 (b - a).
Proof.
  intros Hs. revert a. induction Hs as [|x l Hl IH Hx]; intros a Hr.
  - simpl. lia.
  - apply Forall_cons in Hr as [Hxa Hr].
    assert (Forall (λ k, x + 1 ≤ k < b) l) as Hr'.
    { rewrite Forall_forall in *. intros k Hk.
      specialize (Hx k Hk). specialize (Hr k Hk). lia. }
    specialize (IH _ Hr'). simpl length. lia.
Qed.

(** Tab 2 never has more than twelve points. *)
Theorem monthly_revenue_at_most_12 `{FloatSum}
    (csv : list csv_row) (df : list row) (p : params) :
  load_data csv = Some df →
  (length (monthly_revenue (filtered_df df p)) ≤ 12)%nat.
Proof.
  intros Hload.
  assert (∀ r, r ∈ filtered_df df p → loaded r) as Hview.
  { apply Forall_forall, filtered_df_loaded. by eapply load_data_loaded. }
  set (view := filtered_df df p) in *. clearbody view.
  rewrite <- (length_fmap fst).
  assert (Z.of_nat (length (monthly_revenue view).*1) ≤ Z.max 0 (588 - 576));
    [|lia].
  apply strictly_sorted_length.
  - rewrite monthly_revenue_fst.
    eapply StronglySorted_weaken;
      [|apply StronglySorted_NoDup_strict;
         [apply groupby_sorted; apply _ | apply NoDup_groupby_fst]].
    simpl. intros x y. lia.
  - apply Forall_forall. intros k ([k' s] & -> & Hin)%list_elem_of_fmap.
    apply elem_of_monthly_revenue in Hin as [(r & Hr & Hy & Hk) _].
    destruct (loaded_year_month r k') as [Hyear _]; auto.
    simpl. unfold Time.period_year in Hyear.
    Z.to_euclidean_division_equations; lia.
Qed.

Lemma monthly_revenue_at_most_12_witness :
  load_data Sample.csv_two_years = Some Sample.two_years ∧
  (length (monthly_revenue (filtered_df Sample.two_years Sample.toys_by_card))
     ≤ 12)%nat.
Proof.
  split; [reflexivity|].
  exact (monthly_revenue_at_most_12 Sample.csv_two_years Sample.two_years
    Sample.toys_by_card eq_refl).
Defined.



Lemma filter_none {A} (P : A → Prop) `{!∀ x, Decision (P x)} (l : list A) :
  (∀ x, x ∈ l → ¬ P x) → filter P l = [].
Proof.
  induction l as [|x l IH]; intros HP; [done|].
  rewrite filter_cons, decide_False by (apply HP; left).
  apply IH. intros y Hy. apply HP. by right.
Qed.

Lemma filter_or_disjoint_perm {A} (P1 P2 : A → Prop)
    `{!∀ x, Decision (P1 x), !∀ x, Decision (P2 x)} (l : list A) :
  (∀ x, P1 x → P2 x → False) →
  filter (λ x, P1 x ∨ P2 x) l ≡ₚ filter P1 l ++ filter P2 l.
Proof.
  intros Hd. induction l as [|x l IH]; [done|].
  rewrite !filter_cons.
  destruct (decide (P1 x)) as [H1|H1]; destruct (decide (P2 x)) as [H2|H2].
  - destruct (Hd x H1 H2).
  - rewrite decide_True by auto. simpl. by rewrite IH.
  - rewrite decide_True by auto. rewrite IH. apply Permutation_middle.
  - rewrite decide_False by tauto. done.
Qed.

(** The groups of some distinct keys, put end to end, are a rearrangement
    of the rows that have one of these keys. *)
Lemma groups_partition {R} `{EqDecision K} (key : R → option K)
    (ks : list K) (l : list R) :
  NoDup ks →
  mjoin ((λ k, filter (λ r, key r = Some k) l) <$> ks)
    ≡ₚ filter (λ r, key r ∈ Some <$> ks) l.
Proof.
  induction 1 as [|k ks Hk Hks IH].
  - rewrite filter_none; [done|]. intros r _ Hr. by apply elem_of_nil in Hr.
  - rewrite !fmap_cons. cbn [mjoin list_join]. rewrite IH.
    rewrite <- filter_or_disjoint_perm.
    + erewrite list_filter_iff; [reflexivity|].
      intros r. rewrite elem_of_cons. naive_solver.
    + intros r Hr (k' & Heq & Hin)%list_elem_of_fmap.
      rewrite Hr in Heq. simplify_eq. done.
Qed.

(** The grouping of tab 2 loses no row and counts none twice: the values
    of the table are the sums over some groups of rows, none of them empty,
    one per line, and these groups put end to end are a rearrangement of
    the rows of the view that were bought in 2018.  Nothing is said about
    the sums themselves, so this holds whatever their rounding is. *)
Theorem monthly_revenue_partition `{FloatSum}
    (csv : list csv_row) (df : list row) (p : params) :
  load_data csv = Some df →
  let view := filtered_df df p in
  ∃ groups : list (list row),
    (monthly_revenue view).*2 = (λ g, fsum (omap payment_value g)) <$> groups ∧
    Forall (λ g, g ≠ []) groups ∧
    mjoin groups ≡ₚ filter (λ r, Is_true (year_eq 2018 r)) view.
Proof.
  intros Hload view.
  assert (∀ r, r ∈ view → loaded r) as Hview.
  { apply Forall_forall, filtered_df_loaded. by eapply load_data_loaded. }
  clearbody view.
  set (rows := filter (λ r, Is_true (year_eq 2018 r)) view).
  set (keys := (Pd.groupby Z.le year_month rows).*1).
  exists ((λ k, filter (λ r, year_month r = Some k) rows) <$> keys).
  split_and!.
  - unfold monthly_revenue, Pd.group_sum, keys, Pd.groupby. fold rows.
    rewrite <- !list_fmap_compose. apply list_fmap_ext.
    intros _ k _. simpl. by rewrite dropna_fmap_omap.
  - apply Forall_forall. intros g (k & -> & Hk)%list_elem_of_fmap.
    apply elem_of_groupby_fst in Hk as (r & Hr & Hkr).
    apply (elem_of_not_nil r). by apply list_elem_of_filter.
  - rewrite groups_partition by apply NoDup_groupby_fst.
    rewrite filter_all; [done|].
    intros r Hr. apply list_elem_of_fmap.
    pose proof Hr as [Hy Hin]%list_elem_of_filter.
    destruct (Hview r Hin) as (_ & _ & Hk).
    apply year_eq_spec in Hy as (t & Ht & _). rewrite Ht in Hk. simpl in Hk.
    exists (Time.to_period_M t). split; [done|].
    apply elem_of_groupby_fst. eauto.
Qed.

Lemma monthly_revenue_partition_witness :
  load_data Sample.csv_two_years = Some Sample.two_years ∧
  ∃ groups : list (list row),
    length groups = 2%nat ∧
    length (mjoin groups) = 3%nat.
Proof.
  split; [reflexivity|].
  destruct (monthly_revenue_partition Sample.csv_two_years Sample.two_years
    Sample.toys_by_card eq_refl) as (groups & Hsum & _ & Hperm).
  exists groups. split.
  - apply (f_equal length) in Hsum. rewrite !length_fmap in Hsum.
    rewrite <- Hsum. reflexivity.
  - rewrite Hperm. reflexivity.
Defined.

(** ** The metrics *)

Lemma length_dropna_le {A} (col : list (option A)) :
  (length (Pd.dropna col) ≤ length col)%nat.
Proof.
  rewrite <- (list_fmap_id col) at 1.
  rewrite length_dropna_fmap. apply length_filter.
Qed.

Lemma length_unique_le `{EqDecision A} (l : list A) :
  (length (Pd.unique l) ≤ length l)%nat.
Proof.
  apply submseteq_length, NoDup_submseteq; [apply NoDup_unique|].
  intros x. by rewrite elem_of_unique.
Qed.

(** There are never more customers than orders, and filtering raises
    neither metric. *)
Theorem metrics_bounds (df : list row) (p : params) :
  (total_customers df ≤ total_orders df)%nat ∧
  (total_orders (filtered_df df p) ≤ total_orders df)%nat ∧
  (total_customers (filtered_df df p) ≤ total_customers df)%nat.
Proof.
  unfold total_customers, total_orders, Pd.nunique. split_and!.
  - etrans; [apply length_unique_le|]. etrans; [apply length_dropna_le|].
    by rewrite length_fmap.
  - apply length_filter.
  - apply submseteq_length, NoDup_submseteq; [apply NoDup_unique|].
    intros c. rewrite !elem_of_unique, !elem_of_dropna_fmap.
    intros (r & Hr & Hc). exists r. split; [|done].
    by apply elem_of_filtered_df in Hr as [? _].
Qed.




(** ** Means *)

Lemma foldr_add_bounds (lo hi : Z) (vs : list Z) :
  Forall (λ s, lo ≤ s ≤ hi) vs →
  lo * Z.of_nat (length vs) ≤ foldr Z.add 0 vs ≤ hi * Z.of_nat (length vs).
Proof.
  induction 1 as [|s vs Hs _ IH]; [simpl; lia|].
  cbn [foldr length]. lia.
Qed.

Lemma mean_bounds (col : list (option Z)) (lo hi : Z) (m : Q) :
  (∀ s, Some s ∈ col → lo ≤ s ≤ hi) →
  Pd.mean col = Some m →
  (inject_Z lo <= m)%Q ∧ (m <= inject_Z hi)%Q.
Proof.
  intros Hcol [Hne ->]%mean_Some.
  assert (Forall (λ s, lo ≤ s ≤ hi) (Pd.dropna col)) as Hall.
  { apply Forall_forall. intros s Hs. by apply Hcol, elem_of_dropna. }
  apply foldr_add_bounds in Hall.
  assert (Z.pos (Pos.of_nat (length (Pd.dropna col)))
          = Z.of_nat (length (Pd.dropna col))) as Hlen.
  { rewrite <- positive_nat_Z, Nat2Pos.id; [done|].
    by destruct (Pd.dropna col). }
  unfold Qle. simpl. rewrite Hlen. lia.
Qed.

(** A mean never leaves the range of the values it averages: if every
    shipping time of the view lies between [lo] and [hi] days, so does
    every mean of tab 4.  In particular the means are not negative when no
    delivery is dated before its purchase. *)
Theorem avg_shipping_time_bounds `{Sorter} (view : list row) (lo hi : Z) :
  (∀ r s, r ∈ view → shipping_time r = Some s → lo ≤ s ≤ hi) →
  ∀ c m, (c, m) ∈ avg_shipping_time view →
    (inject_Z lo <= m)%Q ∧ (m <= inject_Z hi)%Q.
Proof.
  intros Hview c m [_ Hm]%elem_of_avg_shipping_time.
  eapply mean_bounds; [|exact Hm].
  intros s (r & Hs & Hr%list_elem_of_filter)%list_elem_of_fmap.
  apply (Hview r); [apply Hr | done].
Qed.

Lemma avg_shipping_time_bounds_witness :
  (inject_Z 1 <= 5 # 2)%Q ∧ (5 # 2 <= inject_Z 7)%Q.
Proof.
  refine (avg_shipping_time_bounds Sample.shop 1 7 _ "art" (5 # 2)%Q _).
  - intros r s Hr Hs.
    repeat (apply elem_of_cons in Hr as [->|Hr];
            [simpl in Hs; first [discriminate Hs | injection Hs as <-; lia]|]).
    by apply elem_of_nil in Hr.
  - apply list_elem_of_here.
Defined.

(** Without ties the sorter does not matter for tab 4 either: when no two
    categories have the same mean, every sorter yields the same table. *)
Theorem avg_shipping_time_without_ties (S1 S2 : Sorter) (view : list row) :
  (∀ a b, a ∈ Pd.dropna_values (mean_shipping_time view) →
          b ∈ Pd.dropna_values (mean_shipping_time view) →
          (a.2 == b.2)%Q → a = b) →
  avg_shipping_time (H := S1) view = avg_shipping_time (H := S2) view.
Proof.
  intros Hties. unfold avg_shipping_time, Pd.sort_values_asc. f_equal.
  set (s := Pd.dropna_values _) in *.
  apply (StronglySorted_unique_strong Pd.value_le).
  - intros x y Hx Hy Hxy Hyx.
    rewrite (sort_by_perm (Sorter := S1)) in Hx.
    rewrite (sort_by_perm (Sorter := S2)) in Hy.
    apply Hties; [done..|].
    unfold Pd.value_le in *. apply Qle_bool_Is_true in Hxy, Hyx.
    by apply Qle_antisym.
  - apply sort_by_sorted; apply _.
  - apply sort_by_sorted; apply _.
  - by rewrite !sort_by_perm.
Qed.

Lemma avg_shipping_time_without_ties_witness :
  avg_shipping_time (H := merge_sorter) Sample.shop
    = avg_shipping_time (H := reversing_sorter) Sample.shop.
Proof.
  apply avg_shipping_time_without_ties.
  intros a b Ha Hb.
  change (Pd.dropna_values (mean_shipping_time Sample.shop))
    with [("art"%string, (5 # 2)%Q); ("bed"%string, (11 # 2)%Q)] in Ha, Hb.
  apply elem_of_cons in Ha as [->|Ha]; [|apply elem_of_cons in Ha as [->|Ha]];
  (apply elem_of_cons in Hb as [->|Hb]; [|apply elem_of_cons in Hb as [->|Hb]]);
    try (by apply elem_of_nil in Ha); try (by apply elem_of_nil in Hb);
    try done; by vm_compute.
Defined.

(** ** Month buckets and time *)

(** The month bucket of a day, in months counted from March of year 0 of
    the 400-year era of the day. *)
Lemma period_of_day (days : Z) :
  ∃ era yoe mp,
    era = (days + 719468) / 146097 ∧
    yoe = (let doe := days + 719468 - era * 146097 in
           (doe - doe / 1460 + doe / 36524 - doe / 146096) / 365) ∧
    mp = (let doe := days + 719468 - era * 146097 in
          (5 * (doe - (365 * yoe + yoe / 4 - yoe / 100)) + 2) / 153) ∧
    0 ≤ yoe ≤ 399 ∧ 0 ≤ mp ≤ 11 ∧
    Time.ym (Time.civil_from_days days).1.1 (Time.civil_from_days days).1.2
      = (era * 400 + yoe) * 12 + mp + 2 - 1970 * 12.
Proof.
  unfold Time.civil_from_days, Time.ym. cbn [fst snd].
  set (z := days + 719468).
  set (era := z / 146097).
  set (doe := z - era * 146097).
  assert (0 ≤ doe < 146097) as Hdoe
    by (subst doe era; Z.to_euclidean_division_equations; lia).
  set (yoe := (doe - doe / 1460 + doe / 36524 - doe / 146096) / 365).
  set (doy := doe - (365 * yoe + yoe / 4 - yoe / 100)).
  assert (0 ≤ doy ≤ 365 ∧ 0 ≤ yoe ≤ 399) as [Hdoy Hyoe]
    by (subst doy yoe; Z.to_euclidean_division_equations; lia).
  set (mp := (5 * doy + 2) / 153).
  assert (0 ≤ mp ≤ 11) as Hmp
    by (subst mp; Z.to_euclidean_division_equations; lia).
  exists era, yoe, mp. split_and!; try done; try lia.
  destruct (Z.ltb_spec mp 10).
  - destruct (Z.leb_spec (mp + 3) 2); lia.
  - destruct (Z.leb_spec (mp - 9) 2); lia.
Qed.

Lemma to_period_M_mono (t u : Z) :
  t ≤ u → Time.to_period_M t ≤ Time.to_period_M u.
Proof.
  intros Htu%date_of_mono. unfold Time.to_period_M, Time.year_of, Time.month_of.
  destruct (period_of_day (Time.date_of t))
    as (e1 & y1 & m1 & He1 & Hy1 & Hm1 & Hyr1 & Hmr1 & ->).
  destruct (period_of_day (Time.date_of u))
    as (e2 & y2 & m2 & He2 & Hy2 & Hm2 & Hyr2 & Hmr2 & ->).
  set (d1 := Time.date_of t) in *. set (d2 := Time.date_of u) in *.
  clearbody d1 d2. cbv zeta in Hy1, Hy2, Hm1, Hm2.
  assert (e1 ≤ e2) by (subst e1 e2; apply Z.div_le_mono; lia).
  destruct (decide (e1 = e2)) as [Heq|Hne]; [|lia].
  set (doe1 := d1 + 719468 - e1 * 146097) in *.
  set (doe2 := d2 + 719468 - e2 * 146097) in *.
  assert (0 ≤ doe1 ∧ doe1 ≤ doe2 ∧ doe2 < 146097) as (? & ? & ?).
  { subst doe1 doe2. rewrite <- Heq. subst e1.
    Z.to_euclidean_division_equations; lia. }
  clearbody doe1 doe2.
  assert (y1 ≤ y2).
  { subst y1 y2. apply Z.div_le_mono; [lia|].
    Z.to_euclidean_division_equations; lia. }
  destruct (decide (y1 = y2)) as [Hy|Hy]; [|lia].
  assert (m1 ≤ m2); [|lia].
  subst m1 m2. apply Z.div_le_mono; [lia|]. rewrite <- Hy. lia.
Qed.

(** The month buckets follow time: of two rows of a loaded frame, the one
    bought later is never in an earlier bucket, and two rows share a bucket
    exactly when they were bought in the same month of the same year.  So
    the ascending order of tab 2 is the order of the calendar. *)
Theorem year_month_chronological (csv : list csv_row) (df : list row) :
  load_data csv = Some df →
  ∀ r1 r2 t1 t2 k1 k2,
    r1 ∈ df → r2 ∈ df →
    order_purchase_timestamp r1 = Some t1 →
    order_purchase_timestamp r2 = Some t2 →
    year_month r1 = Some k1 → year_month r2 = Some k2 →
    (t1 ≤ t2 → k1 ≤ k2) ∧
    (k1 = k2 ↔ Time.year_of t1 = Time.year_of t2 ∧
               Time.month_of t1 = Time.month_of t2).
Proof.
  intros Hload r1 r2 t1 t2 k1 k2 Hr1 Hr2 Ht1 Ht2 Hk1 Hk2.
  apply load_data_loaded in Hload. rewrite Forall_forall in Hload.
  destruct (Hload r1 Hr1) as (_ & _ & Hym1).
  destruct (Hload r2 Hr2) as (_ & _ & Hym2).
  rewrite Ht1, Hk1 in Hym1. rewrite Ht2, Hk2 in Hym2.
  simpl in Hym1, Hym2. simplify_eq. split.
  - apply to_period_M_mono.
  - split.
    + intros Heq. split.
      * by rewrite <- !period_year_to_period_M, Heq.
      * by rewrite <- !period_month_to_period_M, Heq.
    + intros [Hy Hm]. unfold Time.to_period_M. by rewrite Hy, Hm.
Qed.

Lemma year_month_chronological_witness :
  load_data Sample.csv_two_years = Some Sample.two_years ∧
  Sample.new_years_eve ∈ Sample.two_years ∧
  Sample.delivered ∈ Sample.two_years ∧
  Time.ymd_hms 2017 12 31 23 59 59 ≤ Time.ymd_hms 2018 3 5 10 0 0 ∧
  Time.ym 2017 12 ≤ Time.ym 2018 3 ∧
  Time.ym 2017 12 ≠ Time.ym 2018 3.
Proof.
  assert (Sample.new_years_eve ∈ Sample.two_years) as Hin1
    by apply list_elem_of_here.
  assert (Sample.delivered ∈ Sample.two_years) as Hin2
    by apply list_elem_of_further, list_elem_of_here.
  assert (Time.ymd_hms 2017 12 31 23 59 59 ≤ Time.ymd_hms 2018 3 5 10 0 0)
    as Hle by (by vm_compute).
  destruct (year_month_chronological Sample.csv_two_years Sample.two_years
    eq_refl Sample.new_years_eve Sample.delivered
    (Time.ymd_hms 2017 12 31 23 59 59) (Time.ymd_hms 2018 3 5 10 0 0)
    (Time.ym 2017 12) (Time.ym 2018 3)
    Hin1 Hin2 eq_refl eq_refl eq_refl eq_refl) as [Hmono Hsame].
  split; [reflexivity|]. split; [exact Hin1|]. split; [exact Hin2|].
  split; [exact Hle|]. split; [exact (Hmono Hle)|].
  intros Heq. apply Hsame in Heq as [Hyear _].
  vm_compute in Hyear. discriminate Hyear.
Defined.

Lemma top_categories_without_ties_witness :
  top_categories (H := merge_sorter) Sample.shop
    = top_categories (H := reversing_sorter) Sample.shop.
Proof.
  apply top_categories_without_ties.
  change (NoDup [1%nat; 3%nat; 2%nat]).
  repeat (apply NoDup_cons; split; [by apply (bool_decide_unpack _)|]).
  apply NoDup_nil_2.
Defined.
